(** * REST-API-Showcase: businesses and reviews

    A shallow embedding of [src/main.py]: the eleven Flask handlers over the
    two tables created by [create_table], and the properties of the
    specification proved (or refuted) on them.

    Conventions of the embedding.
    - A JSON request body is a Python dict: a finite map from field names to
      JSON values.  The values modelled are [null], integers and strings.
    - A table is the list of its rows in insertion order, a sequence counter
      gives the next value of its [SERIAL] column.
    - The relational store is strictly typed: an [INT] column takes an integer
      of 32 bits, a [VARCHAR(n)] column a string of at most [n] characters,
      [NOT NULL] refuses [null], and the [CHECK] on [stars] is enforced.  A
      statement the store refuses raises, and the handler, which has not
      committed, leaves the tables as they were.  The conversions a MySQL
      server applies to a value of another type (a numeric string bound to an
      [INT] column or compared with one, an integer bound to a [VARCHAR]
      column) are not modelled: the model refuses such a value where the
      server may convert it, and the theorems assert an answer only for
      values of the column's type.
    - A request body that is not a JSON object (an array, a string, a
      number) is outside the model, and so are the [TypeError] and
      [AttributeError] that the handlers raise on one.
    - A handler maps the store and the request to the new store and either a
      response (payload and status) or the exception that escaped it. *)

From stdpp Require Import gmap strings list fin_maps sorting pretty.

Local Open Scope Z_scope.

(** ** JSON values and Python dicts *)

Inductive json :=
  | JNull
  | JInt (z : Z)
  | JStr (s : string).

Global Instance json_eq_dec : EqDecision json.
Proof. solve_decision. Defined.

Abbreviation dict := (gmap string json).

(** ** Exceptions and the error monad *)

Inductive exn :=
  | KeyError (key : string)      (* content['k'] on an absent key *)
  | MultipleResultsFound         (* one_or_none() on more than one row *)
  | StoreError.                  (* a statement refused by the store *)

Inductive result (A : Type) :=
  | Ok (a : A)
  | Raise (e : exn).
Global Arguments Ok {A} a.
Global Arguments Raise {A} e.

Global Instance result_ret : MRet result := λ A a, Ok a.
Global Instance result_bind : MBind result := λ A B f m,
  match m with
  | Ok a => f a
  | Raise e => Raise e
  end.

(** [content.get(k) is None]: the key is absent or bound to [null]. *)
Definition get_is_none (content : dict) (k : string) : bool :=
  match content !! k with
  | None | Some JNull => true
  | Some _ => false
  end.

(** [content.get(k, dflt)] *)
Definition get_default (content : dict) (k : string) (dflt : json) : json :=
  default dflt (content !! k).

(** [content[k]] *)
Definition getitem (content : dict) (k : string) : result json :=
  match content !! k with
  | Some v => Ok v
  | None => Raise (KeyError k)
  end.

(** ** Constants of main.py *)

Definition BUSINESSES : string := "businesses".
Definition REVIEWS : string := "reviews".
Definition USERS : string := "users".
Definition OWNERS : string := "owners".

Definition ERROR_MISSING_ATTRIBUTES : dict :=
  {[ "Error" := JStr "The request body is missing at least one of the required attributes" ]}.
Definition ERROR_BUSINESS_NOT_FOUND : dict :=
  {[ "Error" := JStr "No business with this business_id exists" ]}.
Definition ERROR_REVIEW_CONFLICT : dict :=
  {[ "Error" := JStr "You have already submitted a review for this business. You can update your previous review, or delete it and submit a new review" ]}.
Definition ERROR_REVIEW_NOT_FOUND : dict :=
  {[ "Error" := JStr "No review with this review_id exists" ]}.

(** ** The relational store (schema of [create_table]) *)

Record business := {
  b_id : Z;
  b_owner_id : Z;
  b_name : string;
  b_street_address : string;
  b_city : string;
  b_state : string;
  b_zip_code : string;
}.

Record review := {
  r_id : Z;
  r_user_id : Z;
  r_business_id : Z;
  r_stars : Z;
  r_review_text : option string;   (* nullable column *)
}.

Record db := {
  businesses : list business;
  reviews : list review;
  businesses_seq : Z;              (* next value of businesses.id *)
  reviews_seq : Z;                 (* next value of reviews.id *)
}.

Definition empty_db : db :=
  {| businesses := []; reviews := []; businesses_seq := 1; reviews_seq := 1 |}.

Definition INT_MIN : Z := -2147483648.
Definition INT_MAX : Z := 2147483647.

(** [INT NOT NULL] *)
Definition col_int (v : json) : result Z :=
  match v with
  | JInt z => if decide (INT_MIN ≤ z ≤ INT_MAX) then Ok z else Raise StoreError
  | _ => Raise StoreError
  end.

(** [VARCHAR(n) NOT NULL] *)
Definition col_varchar (n : nat) (v : json) : result string :=
  match v with
  | JStr s => if decide (String.length s ≤ n)%nat then Ok s else Raise StoreError
  | _ => Raise StoreError
  end.

(** [VARCHAR(n)], nullable *)
Definition text_fits (n : nat) (t : option string) : Prop :=
  from_option (λ x, (String.length x ≤ n)%nat) True t.


Definition col_varchar_null (n : nat) (v : json) : result (option string) :=
  match v with
  | JNull => Ok None
  | JStr s => if decide (String.length s ≤ n)%nat then Ok (Some s) else Raise StoreError
  | JInt _ => Raise StoreError
  end.

(** [stars INT NOT NULL CHECK (stars >= 0 AND stars <= 5)] *)
Definition col_stars (v : json) : result Z :=
  z ← col_int v;
  if decide (0 ≤ z ∧ z ≤ 5) then Ok z else Raise StoreError.

(** [col = :param] for an integer column and a bound JSON parameter: an
    integer parameter matches the rows with that value; a parameter of another
    type matches no row here (the server would convert it first). *)
Definition sql_eq (col : Z) (param : json) : Prop := param = JInt col.
Global Instance sql_eq_dec col param : Decision (sql_eq col param).
Proof. unfold sql_eq. apply _. Defined.

(** [.one_or_none()] *)
Definition one_or_none {A} (rows : list A) : result (option A) :=
  match rows with
  | [] => Ok None
  | [row] => Ok (Some row)
  | _ => Raise MultipleResultsFound
  end.

(** The row written by [UPDATE businesses .. WHERE id = i]. *)
Definition set_business (i o : Z) (n a c st z : string) (b : business) : business :=
  if decide (b_id b = i)
  then {| b_id := b_id b; b_owner_id := o; b_name := n; b_street_address := a;
          b_city := c; b_state := st; b_zip_code := z |}
  else b.

(** The row written by [UPDATE reviews .. WHERE id = i]. *)
Definition set_review (i k : Z) (t : option string) (r : review) : review :=
  if decide (r_id r = i)
  then {| r_id := r_id r; r_user_id := r_user_id r; r_business_id := r_business_id r;
          r_stars := k; r_review_text := t |}
  else r.

(** [INSERT INTO businesses(owner_id, name, street_address, city, state,
    zip_code) VALUES (...)] followed by [SELECT last_insert_id()]. *)
Definition insert_business (s : db)
    (owner_id name street_address city state zip_code : json) : result (db * Z) :=
  o ← col_int owner_id;
  n ← col_varchar 50 name;
  a ← col_varchar 100 street_address;
  c ← col_varchar 50 city;
  st ← col_varchar 2 state;
  z ← col_varchar 5 zip_code;
  let i := businesses_seq s in
  Ok ({| businesses := businesses s ++
           [{| b_id := i; b_owner_id := o; b_name := n; b_street_address := a;
               b_city := c; b_state := st; b_zip_code := z |}];
         reviews := reviews s;
         businesses_seq := i + 1;
         reviews_seq := reviews_seq s |}, i).

(** [UPDATE businesses SET name = .., owner_id = .., ... WHERE id = :business_id] *)
Definition update_business (s : db) (business_id : Z)
    (name owner_id street_address city state zip_code : json) : result db :=
  match filter (λ b, b_id b = business_id) (businesses s) with
  | [] => Ok s
  | _ =>
    n ← col_varchar 50 name;
    o ← col_int owner_id;
    a ← col_varchar 100 street_address;
    c ← col_varchar 50 city;
    st ← col_varchar 2 state;
    z ← col_varchar 5 zip_code;
    Ok {| businesses := set_business business_id o n a c st z <$> businesses s;
          reviews := reviews s;
          businesses_seq := businesses_seq s;
          reviews_seq := reviews_seq s |}
  end.

(** [INSERT INTO reviews(user_id, business_id, stars, review_text) VALUES (...)]
    followed by [SELECT last_insert_id()]. *)
Definition insert_review (s : db)
    (user_id business_id stars review_text : json) : result (db * Z) :=
  u ← col_int user_id;
  b ← col_int business_id;
  k ← col_stars stars;
  t ← col_varchar_null 1000 review_text;
  let i := reviews_seq s in
  Ok ({| businesses := businesses s;
         reviews := reviews s ++
           [{| r_id := i; r_user_id := u; r_business_id := b; r_stars := k;
               r_review_text := t |}];
         businesses_seq := businesses_seq s;
         reviews_seq := i + 1 |}, i).

(** [UPDATE reviews SET stars = :stars, review_text = :review_text
    WHERE id = :review_id] *)
Definition update_review (s : db) (review_id : Z) (stars review_text : json) : result db :=
  match filter (λ r, r_id r = review_id) (reviews s) with
  | [] => Ok s
  | _ =>
    k ← col_stars stars;
    t ← col_varchar_null 1000 review_text;
    Ok {| businesses := businesses s;
          reviews := set_review review_id k t <$> reviews s;
          businesses_seq := businesses_seq s;
          reviews_seq := reviews_seq s |}
  end.

(** [ORDER BY id] *)
Definition by_id : relation business := λ a b, b_id a ≤ b_id b.
Global Instance by_id_dec a b : Decision (by_id a b).
Proof. unfold by_id. apply _. Defined.

(** [SELECT * FROM businesses ORDER BY id LIMIT :limit OFFSET :offset];
    a negative [LIMIT] or [OFFSET] is refused by the store. *)
Definition select_businesses_page (s : db) (limit offset : Z) : result (list business) :=
  if decide (0 ≤ limit ∧ 0 ≤ offset)
  then Ok (take (Z.to_nat limit)
             (drop (Z.to_nat offset)
                (merge_sort by_id (businesses s))))
  else Raise StoreError.

(** ** Requests and responses *)

(** Werkzeug's view of the request URL: [url_root] ends with a slash, [path]
    is the routed path without its leading slash. *)
Record request := {
  url_root : string;
  path : string;
  query_string : string;
}.

Definition base_url (req : request) : string := url_root req +:+ path req.
Definition url (req : request) : string :=
  if decide (query_string req = "") then base_url req
  else base_url req +:+ "?" +:+ query_string req.

Inductive payload :=
  | Blank                                      (* '' *)
  | Obj (d : dict)                             (* a dict *)
  | Arr (l : list dict)                        (* a list of dicts *)
  | Paged (entries : list dict) (next : string). (* {'entries': .., 'next': ..} *)

Inductive outcome :=
  | Response (body : payload) (status : Z)
  | Raised (e : exn).

(** A handler body runs inside [with db.connect() as conn]: an exception
    escapes before [conn.commit()], so the store is left unchanged. *)
Definition handler (s : db) (m : result (db * outcome)) : db * outcome :=
  match m with
  | Ok r => r
  | Raise e => (s, Raised e)
  end.

(** [row._asdict()] / [dict(row)] *)
Definition business_asdict (b : business) : dict :=
  list_to_map
    [("id", JInt (b_id b)); ("owner_id", JInt (b_owner_id b));
     ("name", JStr (b_name b)); ("street_address", JStr (b_street_address b));
     ("city", JStr (b_city b)); ("state", JStr (b_state b));
     ("zip_code", JStr (b_zip_code b))].

Definition json_of_text (t : option string) : json :=
  match t with
  | Some s => JStr s
  | None => JNull
  end.

Definition review_asdict (r : review) : dict :=
  list_to_map
    [("id", JInt (r_id r)); ("user_id", JInt (r_user_id r));
     ("business_id", JInt (r_business_id r)); ("stars", JInt (r_stars r));
     ("review_text", json_of_text (r_review_text r))].

(** [str(x)] on a JSON value bound in the body. *)
Definition str (v : json) : string :=
  match v with
  | JNull => "None"
  | JInt z => pretty z
  | JStr s => s
  end.

(** ** The handlers of main.py *)

(** [POST /businesses] *)
Definition post_business (s : db) (req : request) (content : dict) : db * outcome :=
  if decide (size content ≠ 6%nat)
  then (s, Response (Obj ERROR_MISSING_ATTRIBUTES) 400)
  else handler s (
    owner_id ← getitem content "owner_id";
    name ← getitem content "name";
    street_address ← getitem content "street_address";
    city ← getitem content "city";
    state ← getitem content "state";
    zip_code ← getitem content "zip_code";
    '(s', b_id) ← insert_business s owner_id name street_address city state zip_code;
    let b_url := url req +:+ pretty b_id in
    mret (s', Response (Obj (list_to_map
            [("id", JInt b_id); ("owner_id", owner_id); ("name", name);
             ("street_address", street_address); ("city", city);
             ("state", state); ("zip_code", zip_code);
             ("self", JStr b_url)])) 201)).

(** [GET /businesses/<int:business_id>] *)
Definition get_business (s : db) (req : request) (business_id : Z) : db * outcome :=
  handler s (
    row ← one_or_none (filter (λ b, b_id b = business_id) (businesses s));
    match row with
    | None => mret (s, Response (Obj ERROR_BUSINESS_NOT_FOUND) 404)
    | Some row =>
      let business := <["self" := JStr (base_url req)]> (business_asdict row) in
      mret (s, Response (Obj business) 200)
    end).

(** [GET /businesses?offset=&limit=]; [offset] and [limit] are the query
    arguments as [request.args.get(.., type=int)] reads them: [None] when the
    argument is absent or is not an integer. *)
Definition get_businesses (s : db) (req : request) (offset limit : option Z)
    : db * outcome :=
  let offset := default 0 offset in
  let limit := default 3 limit in
  handler s (
    rows ← select_businesses_page s limit offset;
    let businesses :=
      (λ row, <["self" := JStr (url_root req +:+ BUSINESSES +:+ "/" +:+ pretty (b_id row))]>
                (business_asdict row)) <$> rows in
    let next_offset := offset + limit in
    let next_url := url_root req +:+ BUSINESSES +:+ "?offset=" +:+ pretty next_offset
                      +:+ "&limit=" +:+ pretty limit in
    mret (s, Response (Paged businesses next_url) 200)).

(** [GET /owners/<int:owner_id>/businesses] *)
Definition get_businesses__of_owner (s : db) (req : request) (owner_id : Z)
    : db * outcome :=
  let rows := filter (λ b, b_owner_id b = owner_id) (businesses s) in
  let businesses :=
    (λ row, <["self" := JStr (url_root req +:+ BUSINESSES +:+ "/" +:+ pretty (b_id row))]>
              (business_asdict row)) <$> rows in
  (s, Response (Arr businesses) 200).

(** [PUT /businesses/<int:business_id>] *)
Definition put_business (s : db) (req : request) (business_id : Z) (content : dict)
    : db * outcome :=
  if decide (size content ≠ 6%nat)
  then (s, Response (Obj ERROR_MISSING_ATTRIBUTES) 400)
  else handler s (
    row ← one_or_none (filter (λ b, b_id b = business_id) (businesses s));
    match row with
    | None => mret (s, Response (Obj ERROR_BUSINESS_NOT_FOUND) 404)
    | Some _ =>
      name ← getitem content "name";
      owner_id ← getitem content "owner_id";
      street_address ← getitem content "street_address";
      city ← getitem content "city";
      state ← getitem content "state";
      zip_code ← getitem content "zip_code";
      s' ← update_business s business_id name owner_id street_address city state zip_code;
      mret (s', Response (Obj (list_to_map
              [("id", JInt business_id); ("name", name); ("owner_id", owner_id);
               ("street_address", street_address); ("city", city);
               ("state", state); ("zip_code", zip_code);
               ("self", JStr (url req))])) 200)
    end).

(** [DELETE /businesses/<int:business_id>]: two DELETE statements, the commit,
    and only then the test of the second statement's row count. *)
Definition delete_business (s : db) (req : request) (business_id : Z) : db * outcome :=
  let reviews' := filter (λ r, r_business_id r ≠ business_id) (reviews s) in
  let rowcount := length (filter (λ b, b_id b = business_id) (businesses s)) in
  let businesses' := filter (λ b, b_id b ≠ business_id) (businesses s) in
  let s' := {| businesses := businesses'; reviews := reviews';
               businesses_seq := businesses_seq s; reviews_seq := reviews_seq s |} in
  if decide (rowcount = 1%nat)
  then (s', Response Blank 204)
  else (s', Response (Obj ERROR_BUSINESS_NOT_FOUND) 404).

(** [POST /reviews] *)
Definition post_review (s : db) (req : request) (content : dict) : db * outcome :=
  if get_is_none content "user_id" || get_is_none content "business_id"
     || get_is_none content "stars"
  then (s, Response (Obj ERROR_MISSING_ATTRIBUTES) 400)
  else handler s (
    business_id ← getitem content "business_id";
    row ← one_or_none (filter (λ b, sql_eq (b_id b) business_id) (businesses s));
    match row with
    | None => mret (s, Response (Obj ERROR_BUSINESS_NOT_FOUND) 404)
    | Some _ =>
      user_id ← getitem content "user_id";
      row ← one_or_none
              (filter (λ r, sql_eq (r_business_id r) business_id ∧
                            sql_eq (r_user_id r) user_id) (reviews s));
      match row with
      | Some _ => mret (s, Response (Obj ERROR_REVIEW_CONFLICT) 409)
      | None =>
        stars ← getitem content "stars";
        let review_text := get_default content "review_text" (JStr "") in
        '(s', r_id) ← insert_review s user_id business_id stars review_text;
        let r_url := url req +:+ "/" +:+ pretty r_id in
        let b_url := url_root req +:+ BUSINESSES +:+ "/" +:+ str business_id in
        mret (s', Response (Obj (list_to_map
                [("id", JInt r_id); ("user_id", user_id); ("business", JStr b_url);
                 ("stars", stars); ("review_text", review_text);
                 ("self", JStr r_url)])) 201)
      end
    end).

(** [GET /reviews/<int:review_id>] *)
Definition get_review (s : db) (req : request) (review_id : Z) : db * outcome :=
  handler s (
    row ← one_or_none (filter (λ r, r_id r = review_id) (reviews s));
    match row with
    | None => mret (s, Response (Obj ERROR_REVIEW_NOT_FOUND) 404)
    | Some row =>
      let review := review_asdict row in
      let b_url := url_root req +:+ "businesses/" +:+ pretty (r_business_id row) in
      let r_url := url req in
      mret (s, Response (Obj (list_to_map
              [("id", JInt (r_id row)); ("user_id", JInt (r_user_id row));
               ("business", JStr b_url); ("stars", JInt (r_stars row));
               ("review_text", get_default review "review_text" (JStr ""));
               ("self", JStr r_url)])) 200)
    end).

(** [PUT /reviews/<int:review_id>] *)
Definition put_review (s : db) (req : request) (review_id : Z) (content : dict)
    : db * outcome :=
  if get_is_none content "stars"
  then (s, Response (Obj ERROR_MISSING_ATTRIBUTES) 400)
  else handler s (
    row ← one_or_none (filter (λ r, r_id r = review_id) (reviews s));
    match row with
    | None => mret (s, Response (Obj ERROR_REVIEW_NOT_FOUND) 404)
    | Some row =>
      let row_dict := review_asdict row in
      let b_url := url_root req +:+ BUSINESSES +:+ "/" +:+ pretty (r_business_id row) in
      let r_url := url req in
      let review_text :=
        get_default content "review_text" (json_of_text (r_review_text row)) in
      stars ← getitem content "stars";
      s' ← update_review s review_id stars review_text;
      mret (s', Response (Obj (list_to_map
              [("id", JInt (r_id row)); ("user_id", JInt (r_user_id row));
               ("business", JStr b_url); ("stars", stars);
               ("review_text", review_text); ("self", JStr r_url)])) 200)
    end).

(** [GET /users/<int:user_id>/reviews] *)
Definition get_reviews (s : db) (req : request) (user_id : Z) : db * outcome :=
  let rows := filter (λ r, r_user_id r = user_id) (reviews s) in
  let reviews :=
    (λ row,
       let b_url := url_root req +:+ BUSINESSES +:+ "/" +:+ pretty (r_business_id row) in
       let r_url := url_root req +:+ REVIEWS +:+ "/" +:+ pretty (r_id row) in
       <["self" := JStr r_url]>
         (<["business" := JStr b_url]> (delete "business_id" (review_asdict row))))
    <$> rows in
  (s, Response (Arr reviews) 200).

(** [DELETE /reviews/<int:review_id>] *)
Definition delete_review (s : db) (req : request) (review_id : Z) : db * outcome :=
  let rowcount := length (filter (λ r, r_id r = review_id) (reviews s)) in
  let s' := {| businesses := businesses s;
               reviews := filter (λ r, r_id r ≠ review_id) (reviews s);
               businesses_seq := businesses_seq s; reviews_seq := reviews_seq s |} in
  if decide (rowcount = 1%nat)
  then (s', Response Blank 204)
  else (s', Response (Obj ERROR_REVIEW_NOT_FOUND) 404).

(** ** The API as a transition system *)

Inductive call :=
  | PostBusiness (req : request) (content : dict)
  | GetBusiness (req : request) (business_id : Z)
  | GetBusinesses (req : request) (offset limit : option Z)
  | GetBusinessesOfOwner (req : request) (owner_id : Z)
  | PutBusiness (req : request) (business_id : Z) (content : dict)
  | DeleteBusiness (req : request) (business_id : Z)
  | PostReview (req : request) (content : dict)
  | GetReview (req : request) (review_id : Z)
  | PutReview (req : request) (review_id : Z) (content : dict)
  | GetReviews (req : request) (user_id : Z)
  | DeleteReview (req : request) (review_id : Z).

Definition dispatch (s : db) (c : call) : db * outcome :=
  match c with
  | PostBusiness req content => post_business s req content
  | GetBusiness req i => get_business s req i
  | GetBusinesses req offset limit => get_businesses s req offset limit
  | GetBusinessesOfOwner req o => get_businesses__of_owner s req o
  | PutBusiness req i content => put_business s req i content
  | DeleteBusiness req i => delete_business s req i
  | PostReview req content => post_review s req content
  | GetReview req i => get_review s req i
  | PutReview req i content => put_review s req i content
  | GetReviews req u => get_reviews s req u
  | DeleteReview req i => delete_review s req i
  end.

(** The store after a sequence of requests served one after the other. *)
Definition serve (s : db) (cs : list call) : db :=
  foldl (λ s c, (dispatch s c).1) s cs.

Inductive reachable : db → Prop :=
  | reachable_init : reachable empty_db
  | reachable_step s c : reachable s → reachable (dispatch s c).1.

(** Requests used in examples. *)
Definition localhost (p : string) : request :=
  {| url_root := "http://localhost:8080/"; path := p; query_string := "" |}.

Definition example_business : dict :=
  list_to_map
    [("owner_id", JInt 7); ("name", JStr "Cafe"); ("street_address", JStr "1 Main St");
     ("city", JStr "Corvallis"); ("state", JStr "OR"); ("zip_code", JStr "97330")].

Definition example_review (u b k : Z) : dict :=
  list_to_map [("user_id", JInt u); ("business_id", JInt b); ("stars", JInt k)].

(** ** Store transitions

    Every handler either leaves the store as it is or performs one of six
    mutations; the side conditions are the checks the handlers make before
    they write. *)

Definition review_key (r : review) : Z * Z := (r_user_id r, r_business_id r).

Inductive store_step (s : db) : db → Prop :=
  | step_insert_business o n a c st z :
      store_step s
        {| businesses := businesses s ++
             [{| b_id := businesses_seq s; b_owner_id := o; b_name := n;
                 b_street_address := a; b_city := c; b_state := st; b_zip_code := z |}];
           reviews := reviews s;
           businesses_seq := businesses_seq s + 1;
           reviews_seq := reviews_seq s |}
  | step_update_business i o n a c st z :
      store_step s
        {| businesses := set_business i o n a c st z <$> businesses s;
           reviews := reviews s;
           businesses_seq := businesses_seq s;
           reviews_seq := reviews_seq s |}
  | step_delete_business i :
      store_step s
        {| businesses := filter (λ b, b_id b ≠ i) (businesses s);
           reviews := filter (λ r, r_business_id r ≠ i) (reviews s);
           businesses_seq := businesses_seq s;
           reviews_seq := reviews_seq s |}
  | step_insert_review u b k t :
      b ∈ (b_id <$> businesses s) →
      (u, b) ∉ (review_key <$> reviews s) →
      0 ≤ k ≤ 5 → text_fits 1000 t →
      store_step s
        {| businesses := businesses s;
           reviews := reviews s ++
             [{| r_id := reviews_seq s; r_user_id := u; r_business_id := b;
                 r_stars := k; r_review_text := t |}];
           businesses_seq := businesses_seq s;
           reviews_seq := reviews_seq s + 1 |}
  | step_update_review i k t :
      0 ≤ k ≤ 5 → text_fits 1000 t →
      store_step s
        {| businesses := businesses s;
           reviews := set_review i k t <$> reviews s;
           businesses_seq := businesses_seq s;
           reviews_seq := reviews_seq s |}
  | step_delete_review i :
      store_step s
        {| businesses := businesses s;
           reviews := filter (λ r, r_id r ≠ i) (reviews s);
           businesses_seq := businesses_seq s;
           reviews_seq := reviews_seq s |}.

(** ** Invariants of the reachable stores *)

(** [PRIMARY KEY (id)] with [SERIAL] ids: ids are unique and below the
    sequence counter. *)
Record primary_keys (s : db) : Prop := {
  business_ids_unique : NoDup (b_id <$> businesses s);
  business_ids_fresh : Forall (λ b, b_id b < businesses_seq s) (businesses s);
  review_ids_unique : NoDup (r_id <$> reviews s);
  review_ids_fresh : Forall (λ r, r_id r < reviews_seq s) (reviews s);
}.

(** One review per (user, business). *)
Definition unique_reviews (s : db) : Prop := NoDup (review_key <$> reviews s).

(** Every review refers to a stored business. *)
Definition referential_integrity (s : db) : Prop :=
  ∀ r, r ∈ reviews s → ∃ b, b ∈ businesses s ∧ b_id b = r_business_id r.

(** [CHECK (stars >= 0 AND stars <= 5)] and [review_text VARCHAR(1000)] *)
Definition review_columns (s : db) : Prop :=
  ∀ r, r ∈ reviews s → 0 ≤ r_stars r ≤ 5 ∧ text_fits 1000 (r_review_text r).

(** A business, or a review, matching the JSON parameters bound in the
    [SELECT] statements of [post_review]. *)
Definition has_business (s : db) (business_id : json) : Prop :=
  Exists (λ b, business_id = JInt (b_id b)) (businesses s).

Definition has_review (s : db) (user_id business_id : json) : Prop :=
  Exists (λ r, business_id = JInt (r_business_id r) ∧ user_id = JInt (r_user_id r))
    (reviews s).

Global Instance has_business_dec s business_id : Decision (has_business s business_id).
Proof. unfold has_business. apply _. Defined.

Global Instance has_review_dec s user_id business_id :
  Decision (has_review s user_id business_id).
Proof. unfold has_review. apply _. Defined.

(** The value stored in [review_text VARCHAR(1000)] for a bound parameter. *)
Definition storable_text (v : json) (t : option string) : Prop :=
  match v with
  | JNull => t = None
  | JStr x => t = Some x ∧ (String.length x ≤ 1000)%nat
  | JInt _ => False
  end.

(** A response with a 2xx status. *)
Definition succeeded (out : outcome) : Prop :=
  match out with
  | Response _ status => 200 ≤ status < 300
  | Raised _ => False
  end.

(** The store of the examples: one business and one review of it. *)
Definition example_business_row : business :=
  {| b_id := 1; b_owner_id := 7; b_name := "Cafe"; b_street_address := "1 Main St";
     b_city := "Corvallis"; b_state := "OR"; b_zip_code := "97330" |}.

Definition example_review_row : review :=
  {| r_id := 1; r_user_id := 3; r_business_id := 1; r_stars := 4;
     r_review_text := Some "" |}.

Definition example_store : db :=
  serve empty_db
    [PostBusiness (localhost "businesses") example_business;
     PostReview (localhost "reviews") (example_review 3 1 4)].


(** The text Create(Review) stores: the empty string when the body omits
    [review_text], the supplied value otherwise. *)
Definition created_text (content : dict) (t : option string) : Prop :=
  match content !! "review_text" with
  | None => t = Some ""
  | Some v => storable_text v t
  end.

(** The text Update(Review) stores over [old]: [old] itself when the body
    omits [review_text], the supplied value otherwise. *)
Definition updated_text (content : dict) (old t : option string) : Prop :=
  match content !! "review_text" with
  | None => t = old
  | Some v => storable_text v t
  end.

(** The six fields of a business body. *)
Definition required_business_fields : gset string :=
  {[ "owner_id"; "name"; "street_address"; "city"; "state"; "zip_code" ]}.

(** A body of six fields that has no [zip_code] but a field of its own. *)
Definition business_without_zip_code : dict :=
  list_to_map
    [("owner_id", JInt 7); ("name", JStr "Cafe"); ("street_address", JStr "1 Main St");
     ("city", JStr "Corvallis"); ("state", JStr "OR"); ("country", JStr "US")].

(** An entry of the business listings: the row as a dict, with its self link. *)
Definition listed (req : request) (row : business) : dict :=
  <["self" := JStr (url_root req +:+ "businesses/" +:+ pretty (b_id row))]>
    (business_asdict row).

(** The link to the page after the one at [offset] and [limit]. *)
Definition next_page (req : request) (offset limit : Z) : string :=
  url_root req +:+ "businesses?offset=" +:+ pretty (offset + limit)
    +:+ "&limit=" +:+ pretty limit.

(** Five businesses, with the ids 1 to 5. *)
Definition five_businesses : db :=
  serve empty_db (replicate 5 (PostBusiness (localhost "businesses") example_business)).

(** A body with exactly the six required fields, each of the type and within
    the size of its column. *)
Record valid_business (content : dict) (o : Z) (n a c st z : string) : Prop := {
  valid_fields : dom content = required_business_fields;
  valid_owner_id : content !! "owner_id" = Some (JInt o) ∧ INT_MIN ≤ o ≤ INT_MAX;
  valid_name : content !! "name" = Some (JStr n) ∧ (String.length n ≤ 50)%nat;
  valid_street_address :
    content !! "street_address" = Some (JStr a) ∧ (String.length a ≤ 100)%nat;
  valid_city : content !! "city" = Some (JStr c) ∧ (String.length c ≤ 50)%nat;
  valid_state : content !! "state" = Some (JStr st) ∧ (String.length st ≤ 2)%nat;
  valid_zip_code : content !! "zip_code" = Some (JStr z) ∧ (String.length z ≤ 5)%nat;
}.

(** The routes of the business collection and of one business, as the
    decorators of [post_business] and [get_business] give them. *)
Definition route_businesses : string := BUSINESSES.
Definition route_business (business_id : Z) : string :=
  BUSINESSES +:+ "/" +:+ pretty business_id.

(** The request that Get(business_id) serves on the host of [req]. *)
Definition get_request (req : request) (business_id : Z) : request :=
  {| url_root := url_root req; path := route_business business_id; query_string := "" |}.

(** The order in which [post_business] and [put_business] read the fields
    of the body, and the first of them that a body lacks. *)
Definition post_business_reads : list string :=
  ["owner_id"; "name"; "street_address"; "city"; "state"; "zip_code"].

Definition put_business_reads : list string :=
  ["name"; "owner_id"; "street_address"; "city"; "state"; "zip_code"].

Definition first_missing (reads : list string) (content : dict) : option string :=
  head (filter (λ k, content !! k = None) reads).

(** The requests that write: POST, PUT and DELETE. *)
Definition is_write (c : call) : bool :=
  match c with
  | PostBusiness _ _ | PutBusiness _ _ _ | DeleteBusiness _ _
  | PostReview _ _ | PutReview _ _ _ | DeleteReview _ _ => true
  | GetBusiness _ _ | GetBusinesses _ _ _ | GetBusinessesOfOwner _ _
  | GetReview _ _ | GetReviews _ _ => false
  end.

(** The route of one review, and the request that Get(review_id) serves on
    the host of [req]. *)
Definition route_review (review_id : Z) : string := REVIEWS +:+ "/" +:+ pretty review_id.

Definition get_review_request (req : request) (review_id : Z) : request :=
  {| url_root := url_root req; path := route_review review_id; query_string := "" |}.

(** The representation of a review that [get_review] and [put_review] answer. *)
Definition review_body (req : request) (row : review) (self : string) : dict :=
  list_to_map
    [("id", JInt (r_id row)); ("user_id", JInt (r_user_id row));
     ("business", JStr (url_root req +:+ "businesses/" +:+ pretty (r_business_id row)));
     ("stars", JInt (r_stars row));
     ("review_text", json_of_text (r_review_text row));
     ("self", JStr self)].

(** An entry of the reviews of a user: the row without [business_id], with
    the business link and the self link. *)
Definition review_entry (req : request) (row : review) : dict :=
  <["self" := JStr (url_root req +:+ "reviews/" +:+ pretty (r_id row))]>
    (<["business" := JStr (url_root req +:+ "businesses/" +:+ pretty (r_business_id row))]>
       (delete "business_id" (review_asdict row))).

(** The exceptions a request with a JSON object as body can end with, among
    the three of [exn]. *)
Definition may_raise (c : call) (e : exn) : Prop :=
  match e, c with
  | MultipleResultsFound, _ => False
  | KeyError k, PostBusiness _ content
  | KeyError k, PutBusiness _ _ content =>
      k ∈ required_business_fields ∧ content !! k = None
  | KeyError _, _ => False
  | StoreError, (PostBusiness _ _ | PutBusiness _ _ _ | PostReview _ _
                 | PutReview _ _ _ | GetBusinesses _ _ _) => True
  | StoreError, _ => False
  end.

(** The column constraints of [create_table] on a stored row. *)
Definition business_fits (b : business) : Prop :=
  INT_MIN ≤ b_owner_id b ≤ INT_MAX ∧
  (String.length (b_name b) ≤ 50)%nat ∧
  (String.length (b_street_address b) ≤ 100)%nat ∧
  (String.length (b_city b) ≤ 50)%nat ∧
  (String.length (b_state b) ≤ 2)%nat ∧
  (String.length (b_zip_code b) ≤ 5)%nat.

Definition review_fits (r : review) : Prop :=
  INT_MIN ≤ r_user_id r ≤ INT_MAX ∧
  INT_MIN ≤ r_business_id r ≤ INT_MAX ∧
  0 ≤ r_stars r ≤ 5 ∧
  text_fits 1000 (r_review_text r).

Definition rows_fit (s : db) : Prop :=
  (∀ b, b ∈ businesses s → business_fits b) ∧ (∀ r, r ∈ reviews s → review_fits r).
(** * Properties *)

(** ** Python and SQL helpers *)

Lemma get_is_none_false content k :
  get_is_none content k = false ↔ ∃ v, content !! k = Some v ∧ v ≠ JNull.
Proof.
  unfold get_is_none. split.
  - destruct (content !! k) as [[]|]; try done; eauto.
  - intros (v & -> & Hv). by destruct v.
Qed.

Lemma get_is_none_true content k :
  get_is_none content k = true ↔ content !! k = None ∨ content !! k = Some JNull.
Proof.
  unfold get_is_none. destruct (content !! k) as [[]|]; naive_solver.
Qed.

Lemma one_or_none_None {A} (rows : list A) :
  one_or_none rows = Ok None ↔ rows = [].
Proof. destruct rows as [|? []]; naive_solver. Qed.

Lemma one_or_none_Some {A} (rows : list A) row :
  one_or_none rows = Ok (Some row) ↔ rows = [row].
Proof. destruct rows as [|? []]; naive_solver. Qed.

Lemma col_int_Ok v z :
  col_int v = Ok z ↔ v = JInt z ∧ INT_MIN ≤ z ≤ INT_MAX.
Proof.
  unfold col_int. destruct v; try naive_solver.
  case_decide; naive_solver.
Qed.

Lemma col_stars_Ok v k :
  col_stars v = Ok k ↔ v = JInt k ∧ 0 ≤ k ≤ 5.
Proof.
  unfold col_stars. split.
  - destruct (col_int v) as [z|] eqn:Hv; simpl; [|done].
    apply col_int_Ok in Hv as [-> _]. case_decide; naive_solver.
  - intros [-> Hk]. unfold col_int, INT_MIN, INT_MAX.
    rewrite decide_True by lia. simpl. by rewrite decide_True by lia.
Qed.

Lemma col_varchar_Ok n v t :
  col_varchar n v = Ok t ↔ v = JStr t ∧ (String.length t ≤ n)%nat.
Proof.
  unfold col_varchar. destruct v; try naive_solver.
  case_decide; naive_solver.
Qed.

Lemma col_varchar_null_Ok n v t :
  col_varchar_null n v = Ok t ↔ v = json_of_text t ∧ text_fits n t.
Proof.
  unfold col_varchar_null, text_fits. destruct v, t; simpl; try naive_solver.
  all: case_decide; naive_solver.
Qed.

Lemma bind_Ok {A B} (m : result A) (f : A → result B) b :
  m ≫= f = Ok b ↔ ∃ a, m = Ok a ∧ f a = Ok b.
Proof. destruct m; simpl; naive_solver. Qed.

Ltac invert_bind H :=
  repeat (let a := fresh "a" in let Ha := fresh "Ha" in
          apply bind_Ok in H as (a & Ha & H)).

Lemma insert_business_Ok s owner_id name street_address city state zip_code s' i :
  insert_business s owner_id name street_address city state zip_code = Ok (s', i) ↔
  ∃ o n a c st z,
    col_int owner_id = Ok o ∧ col_varchar 50 name = Ok n ∧
    col_varchar 100 street_address = Ok a ∧ col_varchar 50 city = Ok c ∧
    col_varchar 2 state = Ok st ∧ col_varchar 5 zip_code = Ok z ∧
    i = businesses_seq s ∧
    s' = {| businesses := businesses s ++
              [{| b_id := businesses_seq s; b_owner_id := o; b_name := n;
                  b_street_address := a; b_city := c; b_state := st; b_zip_code := z |}];
            reviews := reviews s;
            businesses_seq := businesses_seq s + 1;
            reviews_seq := reviews_seq s |}.
Proof.
  unfold insert_business. split.
  - intros H. invert_bind H. simplify_eq. by eexists _, _, _, _, _, _.
  - intros (o & n & a & c & st & z & -> & -> & -> & -> & -> & -> & -> & ->). done.
Qed.

Lemma update_business_Ok s i name owner_id street_address city state zip_code s' :
  update_business s i name owner_id street_address city state zip_code = Ok s' →
  s' = s ∨
  ∃ o n a c st z,
    col_int owner_id = Ok o ∧ col_varchar 50 name = Ok n ∧
    col_varchar 100 street_address = Ok a ∧ col_varchar 50 city = Ok c ∧
    col_varchar 2 state = Ok st ∧ col_varchar 5 zip_code = Ok z ∧
    s' = {| businesses := set_business i o n a c st z <$> businesses s;
            reviews := reviews s;
            businesses_seq := businesses_seq s;
            reviews_seq := reviews_seq s |}.
Proof.
  unfold update_business. destruct (filter _ _); [naive_solver|].
  intros H. invert_bind H. simplify_eq. right. by eexists _, _, _, _, _, _.
Qed.

Lemma insert_review_Ok s user_id business_id stars review_text s' i :
  insert_review s user_id business_id stars review_text = Ok (s', i) ↔
  ∃ u b k t,
    col_int user_id = Ok u ∧ col_int business_id = Ok b ∧
    col_stars stars = Ok k ∧ col_varchar_null 1000 review_text = Ok t ∧
    i = reviews_seq s ∧
    s' = {| businesses := businesses s;
            reviews := reviews s ++
              [{| r_id := reviews_seq s; r_user_id := u; r_business_id := b;
                  r_stars := k; r_review_text := t |}];
            businesses_seq := businesses_seq s;
            reviews_seq := reviews_seq s + 1 |}.
Proof.
  unfold insert_review. split.
  - intros H. invert_bind H. simplify_eq. by eexists _, _, _, _.
  - intros (u & b & k & t & -> & -> & -> & -> & -> & ->). done.
Qed.

Lemma update_review_Ok s i stars review_text s' :
  update_review s i stars review_text = Ok s' →
  s' = s ∨
  ∃ k t,
    col_stars stars = Ok k ∧ col_varchar_null 1000 review_text = Ok t ∧
    s' = {| businesses := businesses s;
            reviews := set_review i k t <$> reviews s;
            businesses_seq := businesses_seq s;
            reviews_seq := reviews_seq s |}.
Proof.
  unfold update_review. destruct (filter _ _); [naive_solver|].
  intros H. invert_bind H. simplify_eq. right. by eexists _, _.
Qed.

(** ** Every handler performs at most one store transition *)

Ltac run_handler :=
  repeat first
    [ progress cbn [mbind result_bind mret result_ret handler fst snd]
    | match goal with
      | |- context [mbind _ ?m] =>
          let H := fresh "Hrun" in destruct m eqn:H
      | |- context [match ?x with _ => _ end] =>
          let H := fresh "Hrun" in destruct x eqn:H
      end ].

Lemma post_business_step s req content :
  (post_business s req content).1 = s ∨ store_step s (post_business s req content).1.
Proof.
  unfold post_business. run_handler; auto.
  match goal with
  | H : insert_business _ _ _ _ _ _ _ = Ok _ |- _ =>
      apply insert_business_Ok in H as (? & ? & ? & ? & ? & ? & _ & _ & _ & _ & _ & _ & _ & ->)
  end.
  right. constructor.
Qed.

Lemma put_business_step s req i content :
  (put_business s req i content).1 = s ∨ store_step s (put_business s req i content).1.
Proof.
  unfold put_business. run_handler; auto.
  match goal with
  | H : update_business _ _ _ _ _ _ _ _ = Ok _ |- _ =>
      apply update_business_Ok in H
        as [->|(? & ? & ? & ? & ? & ? & _ & _ & _ & _ & _ & _ & ->)]; [by left|]
  end.
  right. constructor.
Qed.

Lemma delete_business_step s req i :
  store_step s (delete_business s req i).1.
Proof. unfold delete_business. case_decide; constructor. Qed.

Lemma delete_review_step s req i :
  store_step s (delete_review s req i).1.
Proof. unfold delete_review. case_decide; constructor. Qed.

Lemma post_review_step s req content :
  (post_review s req content).1 = s ∨ store_step s (post_review s req content).1.
Proof.
  unfold post_review. run_handler; auto.
  match goal with
  | H : insert_review _ _ _ _ _ = Ok _ |- _ =>
      apply insert_review_Ok in H as (u & bid & k & t & Hu & Hb & Hk & Ht & _ & ->)
  end.
  apply col_int_Ok in Hu as [-> _]. apply col_int_Ok in Hb as [-> _].
  apply col_stars_Ok in Hk as [-> Hk].
  match goal with
  | H : one_or_none _ = Ok (Some ?row) |- _ =>
      apply one_or_none_Some in H; rename H into Hrow; rename row into brow
  end.
  match goal with
  | H : one_or_none _ = Ok None |- _ => apply one_or_none_None in H; rename H into Hnone
  end.
  apply col_varchar_null_Ok in Ht as [_ Ht].
  right. constructor; [| |done|done].
  - assert (Hin : brow ∈ filter (λ x, sql_eq (b_id x) (JInt bid)) (businesses s))
      by (rewrite Hrow; set_solver).
    apply list_elem_of_filter in Hin as [Heq Hin]. unfold sql_eq in Heq.
    apply list_elem_of_fmap. exists brow. split; [congruence|done].
  - intros (r & Hr & Hin)%list_elem_of_fmap.
    assert (Hin' : r ∈ filter (λ r, sql_eq (r_business_id r) (JInt bid) ∧
                                     sql_eq (r_user_id r) (JInt u)) (reviews s)).
    { apply list_elem_of_filter. unfold sql_eq, review_key in *. split; [|done].
      by simplify_eq. }
    rewrite Hnone in Hin'. by apply not_elem_of_nil in Hin'.
Qed.

Lemma put_review_step s req i content :
  (put_review s req i content).1 = s ∨ store_step s (put_review s req i content).1.
Proof.
  unfold put_review. run_handler; auto.
  match goal with
  | H : update_review _ _ _ _ = Ok _ |- _ =>
      apply update_review_Ok in H as [->|(k & t & Hk & Ht & ->)]; [by left|]
  end.
  apply col_stars_Ok in Hk as [_ Hk]. apply col_varchar_null_Ok in Ht as [_ Ht].
  right. by constructor.
Qed.

Lemma dispatch_step s c :
  (dispatch s c).1 = s ∨ store_step s (dispatch s c).1.
Proof.
  destruct c; simpl.
  - apply post_business_step.
  - left. unfold get_business. by run_handler.
  - left. unfold get_businesses. by run_handler.
  - by left.
  - apply put_business_step.
  - right. apply delete_business_step.
  - apply post_review_step.
  - left. unfold get_review. by run_handler.
  - apply put_review_step.
  - by left.
  - right. apply delete_review_step.
Qed.

Lemma reachable_serve s cs : reachable s → reachable (serve s cs).
Proof.
  revert s. induction cs as [|c cs IH]; intros s Hs; [done|].
  simpl. apply IH. by constructor.
Qed.

(** An invariant of the store transitions holds in every reachable store. *)
Lemma reachable_invariant (I : db → Prop) :
  I empty_db →
  (∀ s s', store_step s s' → I s → I s') →
  ∀ s, reachable s → I s.
Proof.
  intros Hinit Hstep s Hs. induction Hs as [|s c Hs IH]; [done|].
  destruct (dispatch_step s c) as [->|Hc]; eauto.
Qed.

(** ** Lists of rows *)

Section rows.
Context {A K : Type} `{EqDecision K} (key : A → K).

Lemma NoDup_fmap_filter (P : A → Prop) `{∀ x, Decision (P x)} l :
  NoDup (key <$> l) → NoDup (key <$> filter P l).
Proof.
  induction l as [|x l IH]; [done|].
  rewrite fmap_cons, NoDup_cons. intros [Hx Hl].
  rewrite filter_cons. case_decide; [|auto].
  rewrite fmap_cons, NoDup_cons. split; [|auto].
  intros (y & Hy & Hin)%list_elem_of_fmap. apply list_elem_of_filter in Hin as [_ Hin].
  apply Hx, list_elem_of_fmap. eauto.
Qed.

(** [SELECT .. WHERE key = k] on a table where [key] is unique. *)
Lemma filter_key_absent k l :
  k ∉ (key <$> l) → filter (λ x, key x = k) l = [].
Proof.
  induction l as [|x l IH]; [done|].
  rewrite fmap_cons, not_elem_of_cons. intros [Hk Hl].
  rewrite filter_cons_False by congruence. auto.
Qed.

Lemma filter_key_unique x l :
  NoDup (key <$> l) → x ∈ l → filter (λ y, key y = key x) l = [x].
Proof.
  induction l as [|y l IH]; [by intros _ ?%not_elem_of_nil|].
  rewrite fmap_cons, NoDup_cons. intros [Hy Hl] [->|Hin]%elem_of_cons.
  - rewrite filter_cons_True by done. by rewrite filter_key_absent.
  - rewrite filter_cons_False; [auto|].
    intros Heq. apply Hy. rewrite Heq. apply list_elem_of_fmap. eauto.
Qed.

Lemma key_inj x y l :
  NoDup (key <$> l) → x ∈ l → y ∈ l → key x = key y → x = y.
Proof.
  intros Hl Hx Hy Heq.
  assert (Hin : x ∈ filter (λ z, key z = key y) l) by by apply list_elem_of_filter.
  rewrite filter_key_unique in Hin by done. by apply list_elem_of_singleton in Hin.
Qed.

Lemma filter_key_length k l :
  NoDup (key <$> l) → (length (filter (λ x, key x = k) l) ≤ 1)%nat.
Proof.
  intros Hl. destruct (decide (k ∈ key <$> l)) as [Hk|Hk].
  - apply list_elem_of_fmap in Hk as (x & -> & Hx).
    rewrite filter_key_unique by done. done.
  - rewrite filter_key_absent by done. simpl. lia.
Qed.
End rows.

Lemma set_business_id i o n a c st z b : b_id (set_business i o n a c st z b) = b_id b.
Proof. unfold set_business. by case_decide. Qed.

Lemma set_business_ids i o n a c st z (l : list business) :
  b_id <$> (set_business i o n a c st z <$> l) = b_id <$> l.
Proof.
  rewrite <-list_fmap_compose. apply list_fmap_ext. intros ? b _. apply set_business_id.
Qed.

Lemma set_review_id i k t r : r_id (set_review i k t r) = r_id r.
Proof. unfold set_review. by case_decide. Qed.

Lemma set_review_key i k t r : review_key (set_review i k t r) = review_key r.
Proof. unfold set_review. by case_decide. Qed.

Lemma set_review_ids i k t (l : list review) : r_id <$> (set_review i k t <$> l) = r_id <$> l.
Proof.
  rewrite <-list_fmap_compose. apply list_fmap_ext. intros ? r _. apply set_review_id.
Qed.

Lemma set_review_keys i k t (l : list review) : review_key <$> (set_review i k t <$> l) = review_key <$> l.
Proof.
  rewrite <-list_fmap_compose. apply list_fmap_ext. intros ? r _. apply set_review_key.
Qed.

Lemma NoDup_snoc_fresh {A} (f : A → Z) (l : list A) x (n : Z) :
  NoDup (f <$> l) → Forall (λ y, f y < n) l → f x = n → NoDup (f <$> l ++ [x]).
Proof.
  intros Hl Hn Hx. rewrite fmap_app. apply NoDup_app. split_and!; [done| |].
  - intros k (y & -> & Hy)%list_elem_of_fmap Hk%list_elem_of_singleton.
    rewrite Forall_forall in Hn. specialize (Hn _ Hy). simpl in *. lia.
  - apply NoDup_singleton.
Qed.

Lemma primary_keys_step s s' : store_step s s' → primary_keys s → primary_keys s'.
Proof.
  intros Hstep [Hb Hbf Hr Hrf]. destruct Hstep; split; simpl; try done.
  - by eapply NoDup_snoc_fresh.
  - apply Forall_app. split.
    + eapply Forall_impl; [done|]. simpl. lia.
    + apply Forall_singleton. simpl. lia.
  - by rewrite set_business_ids.
  - apply Forall_fmap. eapply Forall_impl; [done|].
    intros b. simpl. rewrite set_business_id. done.
  - by apply NoDup_fmap_filter.
  - rewrite Forall_forall in *. intros b [_ Hin]%list_elem_of_filter. auto.
  - by apply NoDup_fmap_filter.
  - rewrite Forall_forall in *. intros r [_ Hin]%list_elem_of_filter. auto.
  - by eapply NoDup_snoc_fresh.
  - apply Forall_app. split.
    + eapply Forall_impl; [done|]. simpl. lia.
    + apply Forall_singleton. simpl. lia.
  - by rewrite set_review_ids.
  - apply Forall_fmap. eapply Forall_impl; [done|].
    intros r. simpl. rewrite set_review_id. done.
  - by apply NoDup_fmap_filter.
  - rewrite Forall_forall in *. intros r [_ Hin]%list_elem_of_filter. auto.
Qed.

Lemma unique_reviews_step s s' : store_step s s' → unique_reviews s → unique_reviews s'.
Proof.
  unfold unique_reviews. intros Hstep Hu. destruct Hstep; simpl; try done.
  - by apply NoDup_fmap_filter.
  - rewrite fmap_app. apply NoDup_app. split_and!; [done| |apply NoDup_singleton].
    intros key Hkey ->%list_elem_of_singleton. done.
  - by rewrite set_review_keys.
  - by apply NoDup_fmap_filter.
Qed.

Lemma referential_integrity_step s s' :
  store_step s s' → referential_integrity s → referential_integrity s'.
Proof.
  unfold referential_integrity. intros Hstep Hri. destruct Hstep; simpl.
  - intros r (b & Hb & Hid)%Hri. exists b. split; [|done].
    apply elem_of_app. by left.
  - intros r (b & Hb & Hid)%Hri. exists (set_business i o n a c st z b). split.
    + apply list_elem_of_fmap. eauto.
    + by rewrite set_business_id.
  - intros r [Hne (b & Hb & Hid)%Hri]%list_elem_of_filter. exists b. split; [|done].
    apply list_elem_of_filter. split; [congruence|done].
  - intros r [Hr|Hr%list_elem_of_singleton]%elem_of_app; [auto|].
    subst r. simpl.
    match goal with H : _ ∈ b_id <$> _ |- _ => apply list_elem_of_fmap in H as (x & -> & Hx) end.
    eauto.
  - intros r (r0 & -> & Hr0)%list_elem_of_fmap.
    destruct (Hri _ Hr0) as (b & Hb & Hid). exists b. split; [done|].
    unfold set_review. by case_decide.
  - intros r [_ Hr]%list_elem_of_filter. auto.
Qed.

Lemma review_columns_step s s' : store_step s s' → review_columns s → review_columns s'.
Proof.
  unfold review_columns. intros Hstep Hs. destruct Hstep; simpl; try done.
  - intros r [_ Hr]%list_elem_of_filter. auto.
  - intros r [Hr|Hr%list_elem_of_singleton]%elem_of_app; [auto|]. by subst r.
  - intros r (r0 & -> & Hr0)%list_elem_of_fmap. unfold set_review.
    case_decide; simpl; auto.
  - intros r [_ Hr]%list_elem_of_filter. auto.
Qed.

Lemma reachable_primary_keys s : reachable s → primary_keys s.
Proof.
  apply reachable_invariant; [|apply primary_keys_step].
  split; simpl; constructor.
Qed.

Lemma reachable_unique_reviews s : reachable s → unique_reviews s.
Proof.
  apply reachable_invariant; [|apply unique_reviews_step]. constructor.
Qed.

Lemma reachable_referential_integrity s : reachable s → referential_integrity s.
Proof.
  apply reachable_invariant; [|apply referential_integrity_step].
  by intros r ?%not_elem_of_nil.
Qed.

Lemma reachable_review_columns s : reachable s → review_columns s.
Proof.
  apply reachable_invariant; [|apply review_columns_step].
  by intros r ?%not_elem_of_nil.
Qed.

(** ** Create(Review) *)

Lemma storable_text_col v t : storable_text v t → col_varchar_null 1000 v = Ok t.
Proof.
  destruct v; simpl; [by intros ->|done|]. intros [-> Hlen].
  by rewrite decide_True.
Qed.

Lemma filter_none {A} (P : A → Prop) `{∀ x, Decision (P x)} (l : list A) :
  (∀ x, x ∈ l → ¬ P x) → filter P l = [].
Proof.
  induction l as [|x l IH]; [done|]. intros Hl.
  rewrite filter_cons_False by (apply Hl; left).
  apply IH. intros y Hy. apply Hl. by right.
Qed.

Lemma select_business s b :
  primary_keys s → b ∈ businesses s →
  filter (λ x, sql_eq (b_id x) (JInt (b_id b))) (businesses s) = [b].
Proof.
  intros [Hpk _ _ _] Hb.
  etrans; [|by apply (filter_key_unique b_id)].
  apply list_filter_iff. intros x. unfold sql_eq. split; congruence.
Qed.

Lemma select_review s r :
  unique_reviews s → r ∈ reviews s →
  filter (λ x, sql_eq (r_business_id x) (JInt (r_business_id r)) ∧
               sql_eq (r_user_id x) (JInt (r_user_id r))) (reviews s) = [r].
Proof.
  intros Hu Hr.
  etrans; [|by apply (filter_key_unique review_key)].
  apply list_filter_iff. intros x. unfold sql_eq, review_key.
  split; [intros [??]|intros [=]]; [|split]; congruence.
Qed.

Section post_review.
Context (s : db) (req : request) (content : dict).
Context (user_id business_id stars : json).
Context (Huser : content !! "user_id" = Some user_id) (Huser' : user_id ≠ JNull).
Context (Hbusiness : content !! "business_id" = Some business_id)
        (Hbusiness' : business_id ≠ JNull).
Context (Hstars : content !! "stars" = Some stars) (Hstars' : stars ≠ JNull).

Lemma post_review_present :
  get_is_none content "user_id" || get_is_none content "business_id"
    || get_is_none content "stars" = false.
Proof.
  rewrite !orb_false_iff, !get_is_none_false. split_and!; eauto.
Qed.


Lemma post_review_conflict :
  primary_keys s → unique_reviews s →
  has_business s business_id → has_review s user_id business_id →
  post_review s req content = (s, Response (Obj ERROR_REVIEW_CONFLICT) 409).
Proof.
  intros Hpk Hu (b & Hb & Hbeq)%Exists_exists (r & Hr & Hrb & Hru)%Exists_exists.
  unfold post_review. rewrite post_review_present.
  unfold getitem. rewrite Hbusiness, Huser. cbn [mbind result_bind].
  rewrite Hbeq, select_business by done. cbn [one_or_none mbind result_bind].
  rewrite <-Hbeq, Hrb, Hru, select_review by done. done.
Qed.

End post_review.


(** Whatever [post_review] answers other than 201, it wrote nothing. *)
Lemma post_review_failure_unchanged s req content :
  (∀ body, (post_review s req content).2 ≠ Response body 201) →
  (post_review s req content).1 = s.
Proof.
  unfold post_review. run_handler; try done.
  intros Hfail. by edestruct Hfail.
Qed.

(** ** Update(Review) *)

Lemma put_review_missing s req i content :
  get_is_none content "stars" = true →
  put_review s req i content = (s, Response (Obj ERROR_MISSING_ATTRIBUTES) 400).
Proof. intros H. unfold put_review. by rewrite H. Qed.

Lemma put_review_not_found s req i content :
  get_is_none content "stars" = false →
  (∀ r, r ∈ reviews s → r_id r ≠ i) →
  put_review s req i content = (s, Response (Obj ERROR_REVIEW_NOT_FOUND) 404).
Proof.
  intros H Hnone. unfold put_review. rewrite H.
  rewrite filter_none by done. done.
Qed.

Lemma put_review_updated s req i content r k t :
  primary_keys s → r ∈ reviews s → r_id r = i →
  content !! "stars" = Some (JInt k) → 0 ≤ k ≤ 5 →
  storable_text (get_default content "review_text" (json_of_text (r_review_text r))) t →
  put_review s req i content =
    ({| businesses := businesses s;
        reviews := set_review i k t <$> reviews s;
        businesses_seq := businesses_seq s;
        reviews_seq := reviews_seq s |},
     Response (Obj (list_to_map
       [("id", JInt (r_id r)); ("user_id", JInt (r_user_id r));
        ("business", JStr (url_root req +:+ "businesses/" +:+ pretty (r_business_id r)));
        ("stars", JInt k);
        ("review_text", get_default content "review_text" (json_of_text (r_review_text r)));
        ("self", JStr (url req))])) 200).
Proof.
  intros [_ _ Hpk _] Hr <- Hstars Hk Ht.
  unfold put_review, get_is_none, getitem. rewrite Hstars.
  rewrite (filter_key_unique r_id) by done. cbn [one_or_none mbind result_bind].
  unfold update_review. rewrite (filter_key_unique r_id) by done.
  unfold col_stars, col_int.
  rewrite (decide_True (P:=INT_MIN ≤ k ≤ INT_MAX)) by (unfold INT_MIN, INT_MAX; lia).
  cbn [mbind result_bind].
  rewrite (decide_True (P:=0 ≤ k ∧ k ≤ 5)) by done.
  rewrite (storable_text_col _ _ Ht). done.
Qed.

(** [put_review] rewrites [stars] and [review_text] only. *)
Lemma put_review_frame s req i content :
  businesses (put_review s req i content).1 = businesses s ∧
  (λ r, (r_id r, r_user_id r, r_business_id r)) <$> reviews (put_review s req i content).1
  = (λ r, (r_id r, r_user_id r, r_business_id r)) <$> reviews s.
Proof.
  unfold put_review. run_handler; try done.
  match goal with
  | H : update_review _ _ _ _ = Ok _ |- _ =>
      apply update_review_Ok in H as [->|(k & t & _ & _ & ->)]; [done|]
  end.
  split; [done|]. simpl. rewrite <-list_fmap_compose. apply list_fmap_ext.
  intros ? x _. simpl. unfold set_review. by case_decide.
Qed.

(** Whatever [put_review] answers other than 200, it wrote nothing. *)
Lemma put_review_failure_unchanged s req i content :
  (∀ body, (put_review s req i content).2 ≠ Response body 200) →
  (put_review s req i content).1 = s.
Proof.
  unfold put_review. run_handler; try done.
  intros Hfail. by edestruct Hfail.
Qed.

(** A [stars] value the [CHECK] refuses makes both writers fail. *)
Lemma post_review_stars_refused s req content k :
  content !! "stars" = Some (JInt k) → ¬ (0 ≤ k ≤ 5) →
  (post_review s req content).1 = s ∧ ¬ succeeded (post_review s req content).2.
Proof.
  intros Hstars Hk. unfold post_review, getitem. rewrite Hstars.
  run_handler; simpl; try (split; [done|lia || tauto]).
  match goal with
  | H : insert_review _ _ _ _ _ = Ok _ |- _ =>
      apply insert_review_Ok in H as (? & ? & ? & ? & _ & _ & Hok & _)
  end.
  apply col_stars_Ok in Hok as [[= <-] ?]. done.
Qed.

Lemma put_review_stars_refused s req i content k :
  content !! "stars" = Some (JInt k) → ¬ (0 ≤ k ≤ 5) →
  (put_review s req i content).1 = s ∧ ¬ succeeded (put_review s req i content).2.
Proof.
  intros Hstars Hk. unfold put_review, getitem. rewrite Hstars.
  run_handler; simpl; try (split; [done|lia || tauto]).
  match goal with
  | H : update_review _ _ _ _ = Ok _ |- _ => unfold update_review in H
  end.
  match goal with
  | H : one_or_none ?l = Ok (Some _) |- _ => apply one_or_none_Some in H; rewrite H in *
  end.
  match goal with
  | H : _ ≫= _ = Ok _ |- _ => apply bind_Ok in H as (? & Hok & _)
  end.
  apply col_stars_Ok in Hok as [[= <-] ?]. done.
Qed.

(** ** Delete(Business) *)

Lemma get_business_not_found s req i :
  (∀ b, b ∈ businesses s → b_id b ≠ i) →
  get_business s req i = (s, Response (Obj ERROR_BUSINESS_NOT_FOUND) 404).
Proof. intros Hnone. unfold get_business. by rewrite filter_none. Qed.

Lemma get_review_not_found s req i :
  (∀ r, r ∈ reviews s → r_id r ≠ i) →
  get_review s req i = (s, Response (Obj ERROR_REVIEW_NOT_FOUND) 404).
Proof. intros Hnone. unfold get_review. by rewrite filter_none. Qed.

Lemma delete_business_rowcount s i :
  length (filter (λ b, b_id b = i) (businesses s)) = 0%nat ↔
  ∀ b, b ∈ businesses s → b_id b ≠ i.
Proof.
  rewrite length_zero_iff_nil. split.
  - intros Hnil b Hb Hid.
    by apply (filter_nil_not_elem_of (λ x, b_id x = i) (businesses s) b).
  - apply filter_none.
Qed.

(** ** Validation of a business body *)

Lemma required_business_fields_size : size required_business_fields = 6%nat.
Proof. reflexivity. Qed.

Lemma getitem_required content k :
  dom content = required_business_fields → k ∈ required_business_fields →
  ∃ v, getitem content k = Ok v.
Proof.
  intros Hdom Hk. rewrite <-Hdom in Hk. apply elem_of_dom in Hk as [v Hv].
  exists v. unfold getitem. by rewrite Hv.
Qed.

Lemma post_business_400 s req content :
  size content ≠ 6%nat →
  post_business s req content = (s, Response (Obj ERROR_MISSING_ATTRIBUTES) 400).
Proof. intros H. unfold post_business. by rewrite decide_True. Qed.

Lemma put_business_400 s req i content :
  size content ≠ 6%nat →
  put_business s req i content = (s, Response (Obj ERROR_MISSING_ATTRIBUTES) 400).
Proof. intros H. unfold put_business. by rewrite decide_True. Qed.

Lemma post_business_not_400 s req content body :
  size content = 6%nat → (post_business s req content).2 ≠ Response body 400.
Proof.
  intros H. unfold post_business. rewrite decide_False by lia. by run_handler.
Qed.

Lemma put_business_not_400 s req i content body :
  size content = 6%nat → (put_business s req i content).2 ≠ Response body 400.
Proof.
  intros H. unfold put_business. rewrite decide_False by lia. by run_handler.
Qed.

Lemma bind_Raise {A B} (m : result A) (f : A → result B) e :
  m ≫= f = Raise e → m = Raise e ∨ ∃ a, m = Ok a ∧ f a = Raise e.
Proof. destruct m as [a|e']; simpl; intros H; [right; by exists a|left; by simplify_eq]. Qed.

Lemma col_int_Raise v e : col_int v = Raise e → e = StoreError.
Proof. unfold col_int. repeat case_match; congruence. Qed.

Lemma col_varchar_Raise n v e : col_varchar n v = Raise e → e = StoreError.
Proof. unfold col_varchar. repeat case_match; congruence. Qed.

Ltac store_raise H :=
  repeat (apply bind_Raise in H as [H|(? & _ & H)];
          [by (apply col_int_Raise in H || apply col_varchar_Raise in H)|]).

(** The store refuses a row with [StoreError] and nothing else. *)
Lemma insert_business_Raise s owner_id name street_address city state zip_code e :
  insert_business s owner_id name street_address city state zip_code = Raise e →
  e = StoreError.
Proof. unfold insert_business. intros H. store_raise H. done. Qed.

Lemma update_business_Raise s i name owner_id street_address city state zip_code e :
  update_business s i name owner_id street_address city state zip_code = Raise e →
  e = StoreError.
Proof.
  unfold update_business. destruct (filter _ _); [done|].
  intros H. store_raise H. done.
Qed.

Lemma post_business_no_KeyError s req content k :
  dom content = required_business_fields →
  (post_business s req content).2 ≠ Raised (KeyError k).
Proof.
  intros Hdom. unfold post_business. case_decide; [done|].
  destruct (getitem_required content "owner_id" Hdom) as [v1 ->]; [set_solver|].
  destruct (getitem_required content "name" Hdom) as [v2 ->]; [set_solver|].
  destruct (getitem_required content "street_address" Hdom) as [v3 ->]; [set_solver|].
  destruct (getitem_required content "city" Hdom) as [v4 ->]; [set_solver|].
  destruct (getitem_required content "state" Hdom) as [v5 ->]; [set_solver|].
  destruct (getitem_required content "zip_code" Hdom) as [v6 ->]; [set_solver|].
  cbn [mbind result_bind].
  destruct (insert_business s v1 v2 v3 v4 v5 v6) as [[s' i]|e] eqn:Hins; simpl; [done|].
  apply insert_business_Raise in Hins as ->. done.
Qed.

Lemma put_business_no_KeyError s req i content k :
  dom content = required_business_fields →
  (put_business s req i content).2 ≠ Raised (KeyError k).
Proof.
  intros Hdom. unfold put_business. case_decide; [done|].
  destruct (getitem_required content "owner_id" Hdom) as [v1 ->]; [set_solver|].
  destruct (getitem_required content "name" Hdom) as [v2 ->]; [set_solver|].
  destruct (getitem_required content "street_address" Hdom) as [v3 ->]; [set_solver|].
  destruct (getitem_required content "city" Hdom) as [v4 ->]; [set_solver|].
  destruct (getitem_required content "state" Hdom) as [v5 ->]; [set_solver|].
  destruct (getitem_required content "zip_code" Hdom) as [v6 ->]; [set_solver|].
  destruct (one_or_none _) as [[row|]|e] eqn:Hrow; cbn [mbind result_bind handler snd];
    [|done|].
  - destruct (update_business s i v2 v1 v3 v4 v5 v6) as [s'|e] eqn:Hupd; simpl; [done|].
    apply update_business_Raise in Hupd as ->. done.
  - destruct (filter _ _) as [|? [|??]]; simpl in Hrow; by simplify_eq.
Qed.

(** ** List(Business) *)

Global Instance by_id_total : Total by_id.
Proof. intros a b. unfold by_id. lia. Qed.

Global Instance by_id_trans : Transitive by_id.
Proof. intros a b c. unfold by_id. lia. Qed.

Lemma get_businesses_rows s req offset limit :
  0 ≤ default 0 offset → 0 ≤ default 3 limit →
  get_businesses s req offset limit =
    (s, Response
          (Paged (listed req <$> take (Z.to_nat (default 3 limit))
                                   (drop (Z.to_nat (default 0 offset))
                                      (merge_sort by_id (businesses s))))
             (next_page req (default 0 offset) (default 3 limit))) 200).
Proof.
  intros Hoff Hlim. unfold get_businesses, select_businesses_page.
  by rewrite decide_True.
Qed.

Lemma listed_id req row : listed req row !! "id" = Some (JInt (b_id row)).
Proof. done. Qed.

Lemma listed_self req row :
  listed req row !! "self"
  = Some (JStr (url_root req +:+ "businesses/" +:+ pretty (b_id row))).
Proof. done. Qed.

(** A table whose ids are 1..5, read in id order. *)
Lemma sorted_ids_1_5 (rows : list business) :
  Sorted by_id rows → b_id <$> rows ≡ₚ [1; 2; 3; 4; 5] →
  b_id <$> rows = [1; 2; 3; 4; 5].
Proof.
  intros Hsorted Hperm. apply (Sorted_unique Z.le); [|by repeat constructor|done].
  eapply Sorted_fmap; [|exact Hsorted]. done.
Qed.

(** ** Create(Business) and Get(Business) *)

Lemma post_business_created s req content o n a c st z :
  valid_business content o n a c st z →
  post_business s req content =
    ({| businesses := businesses s ++
          [{| b_id := businesses_seq s; b_owner_id := o; b_name := n;
              b_street_address := a; b_city := c; b_state := st; b_zip_code := z |}];
        reviews := reviews s;
        businesses_seq := businesses_seq s + 1;
        reviews_seq := reviews_seq s |},
     Response (Obj (list_to_map
       [("id", JInt (businesses_seq s)); ("owner_id", JInt o); ("name", JStr n);
        ("street_address", JStr a); ("city", JStr c); ("state", JStr st);
        ("zip_code", JStr z);
        ("self", JStr (url req +:+ pretty (businesses_seq s)))])) 201).
Proof.
  intros [Hdom [Ho Ho'] [Hn Hn'] [Ha Ha'] [Hc Hc'] [Hst Hst'] [Hz Hz']].
  unfold post_business.
  rewrite decide_False
    by (by rewrite <-size_dom, Hdom, required_business_fields_size; intros []).
  unfold getitem. rewrite Ho, Hn, Ha, Hc, Hst, Hz. cbn [mbind result_bind].
  unfold insert_business, col_int, col_varchar.
  rewrite (decide_True (P:=INT_MIN ≤ o ≤ INT_MAX)) by done.
  rewrite (decide_True (P:=(String.length n ≤ 50)%nat)) by done.
  rewrite (decide_True (P:=(String.length a ≤ 100)%nat)) by done.
  rewrite (decide_True (P:=(String.length c ≤ 50)%nat)) by done.
  rewrite (decide_True (P:=(String.length st ≤ 2)%nat)) by done.
  rewrite (decide_True (P:=(String.length z ≤ 5)%nat)) by done.
  done.
Qed.

(** What a 201 of [post_business] says about the store and the body. *)
Lemma post_business_201 s req content s' body :
  post_business s req content = (s', Response (Obj body) 201) →
  ∃ row,
    b_id row = businesses_seq s ∧
    businesses s' = businesses s ++ [row] ∧
    body !! "id" = Some (JInt (businesses_seq s)) ∧
    body !! "self" = Some (JStr (url req +:+ pretty (businesses_seq s))).
Proof.
  unfold post_business. run_handler; intros [= <- <-].
  match goal with
  | H : insert_business _ _ _ _ _ _ _ = Ok _ |- _ =>
      apply insert_business_Ok in H
        as (? & ? & ? & ? & ? & ? & _ & _ & _ & _ & _ & _ & ? & ?)
  end.
  simplify_eq. eexists. split_and!; [|done..]. done.
Qed.

(** Get on the id the store has just generated finds the new row alone. *)
Lemma get_business_new s s' req row :
  primary_keys s → b_id row = businesses_seq s →
  businesses s' = businesses s ++ [row] →
  get_business s' req (businesses_seq s)
  = (s', Response (Obj (<["self" := JStr (base_url req)]> (business_asdict row))) 200).
Proof.
  intros [_ Hfresh _ _] Hid Hs'. unfold get_business. rewrite Hs', filter_app.
  rewrite filter_none.
  2:{ intros b Hb Heq. rewrite Forall_forall in Hfresh. specialize (Hfresh b Hb).
      simpl in Hfresh. lia. }
  rewrite filter_cons_True by done. done.
Qed.

Lemma string_app_assoc (a b c : string) : (a +:+ b) +:+ c = a +:+ b +:+ c.
Proof.
  induction a as [|x a IH]; [reflexivity|].
  change (String x ((a +:+ b) +:+ c) = String x (a +:+ b +:+ c)). by rewrite IH.
Qed.

Lemma string_cons_neq c (p : string) : p ≠ String c p.
Proof. intros H. apply (f_equal String.length) in H. simpl in H. lia. Qed.

(** The collection URL with the id glued to it is not the URL of the business. *)
Lemma self_link_mismatch (root p : string) :
  root +:+ "businesses" +:+ p ≠ root +:+ "businesses/" +:+ p.
Proof.
  intros H. apply (inj (String.app root)) in H. simpl in H.
  injection H as H. by apply string_cons_neq in H.
Qed.

(** ** Update(Business) *)

Lemma filter_fmap_key {A K} `{EqDecision K} (key : A → K) (f : A → A) k (l : list A) :
  (∀ x, key (f x) = key x) →
  filter (λ x, key x = k) (f <$> l) = f <$> filter (λ x, key x = k) l.
Proof.
  intros Hkey. induction l as [|x l IH]; [done|].
  rewrite fmap_cons, !filter_cons, Hkey. case_decide; by rewrite IH.
Qed.

Lemma put_business_updated s req i content b o n a c st z :
  primary_keys s → b ∈ businesses s → b_id b = i →
  valid_business content o n a c st z →
  put_business s req i content =
    ({| businesses := set_business i o n a c st z <$> businesses s;
        reviews := reviews s;
        businesses_seq := businesses_seq s;
        reviews_seq := reviews_seq s |},
     Response (Obj (list_to_map
       [("id", JInt i); ("name", JStr n); ("owner_id", JInt o);
        ("street_address", JStr a); ("city", JStr c); ("state", JStr st);
        ("zip_code", JStr z); ("self", JStr (url req))])) 200).
Proof.
  intros [Hpk _ _ _] Hb <- [Hdom [Ho Ho'] [Hn Hn'] [Ha Ha'] [Hc Hc'] [Hst Hst'] [Hz Hz']].
  unfold put_business.
  rewrite decide_False
    by (by rewrite <-size_dom, Hdom, required_business_fields_size; intros []).
  rewrite (filter_key_unique b_id) by done. cbn [one_or_none mbind result_bind].
  unfold getitem. rewrite Ho, Hn, Ha, Hc, Hst, Hz. cbn [mbind result_bind].
  unfold update_business. rewrite (filter_key_unique b_id) by done.
  unfold col_int, col_varchar.
  rewrite (decide_True (P:=INT_MIN ≤ o ≤ INT_MAX)) by done.
  rewrite (decide_True (P:=(String.length n ≤ 50)%nat)) by done.
  rewrite (decide_True (P:=(String.length a ≤ 100)%nat)) by done.
  rewrite (decide_True (P:=(String.length c ≤ 50)%nat)) by done.
  rewrite (decide_True (P:=(String.length st ≤ 2)%nat)) by done.
  rewrite (decide_True (P:=(String.length z ≤ 5)%nat)) by done.
  done.
Qed.

Lemma put_business_absent s req i content :
  size content = 6%nat → (∀ b, b ∈ businesses s → b_id b ≠ i) →
  put_business s req i content = (s, Response (Obj ERROR_BUSINESS_NOT_FOUND) 404).
Proof.
  intros Hsize Hnone. unfold put_business.
  rewrite decide_False by (by intros []). by rewrite filter_none.
Qed.

(** A body of six fields that are not the six required ones lacks one. *)
Lemma six_fields_missing (content : dict) :
  size content = 6%nat → dom content ≠ required_business_fields →
  ∃ k, k ∈ required_business_fields ∧ content !! k = None.
Proof.
  intros Hsize Hdom.
  destruct (decide (required_business_fields ⊆ dom content)) as [Hsub|Hsub].
  - destruct Hdom. symmetry. apply set_subseteq_size_eq; [done|].
    rewrite size_dom, Hsize, required_business_fields_size. done.
  - destruct (decide (set_Forall (λ k, k ∈ dom content) required_business_fields))
      as [Hall|Hex]; [done|].
    apply not_set_Forall_Exists in Hex as (k & Hk & Hnot); [|apply _].
    exists k. split; [done|]. by apply not_elem_of_dom.
Qed.

Ltac read_field Hk key :=
  let E := fresh "E" in
  destruct (_ !! key) eqn:E; rewrite ?E in Hk;
  [rewrite decide_False in Hk by done
  |rewrite decide_True in Hk by done; simpl in Hk; by simplify_eq].

Lemma post_business_KeyError s req content k :
  size content = 6%nat → first_missing post_business_reads content = Some k →
  post_business s req content = (s, Raised (KeyError k)).
Proof.
  intros Hsize Hk. unfold post_business. rewrite decide_False by (by intros []).
  unfold first_missing, post_business_reads in Hk.
  rewrite !filter_cons, filter_nil in Hk. unfold getitem.
  read_field Hk "owner_id". read_field Hk "name". read_field Hk "street_address".
  read_field Hk "city". read_field Hk "state". read_field Hk "zip_code".
  done.
Qed.

Lemma put_business_KeyError s req i content b k :
  primary_keys s → b ∈ businesses s → b_id b = i →
  size content = 6%nat → first_missing put_business_reads content = Some k →
  put_business s req i content = (s, Raised (KeyError k)).
Proof.
  intros [Hpk _ _ _] Hb <- Hsize Hk. unfold put_business.
  rewrite decide_False by (by intros []).
  rewrite (filter_key_unique b_id) by done. cbn [one_or_none mbind result_bind].
  unfold first_missing, put_business_reads in Hk.
  rewrite !filter_cons, filter_nil in Hk. unfold getitem.
  read_field Hk "name". read_field Hk "owner_id". read_field Hk "street_address".
  read_field Hk "city". read_field Hk "state". read_field Hk "zip_code".
  done.
Qed.

Lemma first_missing_Some reads (content : dict) k :
  first_missing reads content = Some k → k ∈ reads ∧ content !! k = None.
Proof.
  unfold first_missing. intros Hk.
  assert (Hin : k ∈ filter (λ k, content !! k = None) reads).
  { destruct (filter _ reads); simplify_eq/=. left. }
  apply list_elem_of_filter in Hin. tauto.
Qed.

Lemma first_missing_exists reads (content : dict) k :
  k ∈ reads → content !! k = None → ∃ k', first_missing reads content = Some k'.
Proof.
  intros Hin Hk. unfold first_missing.
  assert (Hin' : k ∈ filter (λ k, content !! k = None) reads)
    by by apply list_elem_of_filter.
  destruct (filter _ reads) as [|k' ?]; [by apply elem_of_nil in Hin'|by exists k'].
Qed.

Lemma post_business_reads_required k :
  k ∈ post_business_reads ↔ k ∈ required_business_fields.
Proof. unfold post_business_reads, required_business_fields. set_solver. Qed.

Lemma put_business_reads_required k :
  k ∈ put_business_reads ↔ k ∈ required_business_fields.
Proof. unfold put_business_reads, required_business_fields. set_solver. Qed.


(** ** Reading and deleting rows *)

Lemma filter_all {A} (P : A → Prop) `{∀ x, Decision (P x)} (l : list A) :
  (∀ x, x ∈ l → P x) → filter P l = l.
Proof.
  induction l as [|x l IH]; [done|]. intros Hl.
  rewrite filter_cons_True by (apply Hl; left).
  f_equal. apply IH. intros y Hy. apply Hl. by right.
Qed.

Lemma filter_other_key {A K} `{EqDecision K} (key : A → K) (i j : K) (l : list A) :
  j ≠ i →
  filter (λ x, key x = j) (filter (λ x, key x ≠ i) l) = filter (λ x, key x = j) l.
Proof.
  intros Hne. rewrite list_filter_filter. apply list_filter_iff.
  intros x. split; [tauto|]. intros ->. done.
Qed.

Lemma length_filter_key {A K} `{EqDecision K} (key : A → K) (i : K) (l : list A) :
  (length (filter (λ x, key x ≠ i) l) + length (filter (λ x, key x = i) l)
   = length l)%nat.
Proof.
  induction l as [|x l IH]; [done|]. rewrite !filter_cons.
  destruct (decide (key x = i)); [rewrite decide_False by tauto|rewrite decide_True by done];
    simpl; lia.
Qed.

Lemma get_business_found s req b :
  primary_keys s → b ∈ businesses s →
  get_business s req (b_id b)
  = (s, Response (Obj (<["self" := JStr (base_url req)]> (business_asdict b))) 200).
Proof.
  intros [Hpk _ _ _] Hb. unfold get_business.
  by rewrite (filter_key_unique b_id).
Qed.

Lemma get_review_found s req r :
  primary_keys s → r ∈ reviews s →
  get_review s req (r_id r) = (s, Response (Obj (review_body req r (url req))) 200).
Proof.
  intros [_ _ Hpk _] Hr. unfold get_review.
  by rewrite (filter_key_unique r_id).
Qed.

Lemma getitem_Ok (content : dict) k v : getitem content k = Ok v ↔ content !! k = Some v.
Proof. unfold getitem. destruct (content !! k); split; congruence. Qed.

(** What a 201 of [post_review] says about the body, the store and the answer. *)
Lemma post_review_201 s req content s' body :
  post_review s req content = (s', Response (Obj body) 201) →
  ∃ u b k t,
    content !! "user_id" = Some (JInt u) ∧
    content !! "business_id" = Some (JInt b) ∧
    content !! "stars" = Some (JInt k) ∧
    created_text content t ∧
    has_business s (JInt b) ∧
    s' = {| businesses := businesses s;
            reviews := reviews s ++
              [{| r_id := reviews_seq s; r_user_id := u; r_business_id := b;
                  r_stars := k; r_review_text := t |}];
            businesses_seq := businesses_seq s;
            reviews_seq := reviews_seq s + 1 |} ∧
    body = list_to_map
      [("id", JInt (reviews_seq s)); ("user_id", JInt u);
       ("business", JStr (url_root req +:+ "businesses/" +:+ pretty b));
       ("stars", JInt k); ("review_text", json_of_text t);
       ("self", JStr (url req +:+ "/" +:+ pretty (reviews_seq s)))].
Proof.
  unfold post_review. run_handler; intros [= <- <-].
  match goal with
  | H : insert_review _ _ _ _ _ = Ok _ |- _ =>
      apply insert_review_Ok in H as (uu & bb & kk & tt & Hu & Hb & Hk & Ht & ? & ?)
  end.
  simplify_eq.
  apply col_int_Ok in Hu as [Hu _]. apply col_int_Ok in Hb as [Hb _].
  apply col_stars_Ok in Hk as [Hk _]. apply col_varchar_null_Ok in Ht as [Ht Hfits].
  subst. repeat match goal with
  | H : getitem _ _ = Ok _ |- _ => apply getitem_Ok in H
  end.
  match goal with
  | H : one_or_none _ = Ok (Some ?row) |- _ =>
      apply one_or_none_Some in H; rename H into Hrow; rename row into brow
  end.
  assert (Hin : brow ∈ filter (λ x, sql_eq (b_id x) (JInt bb)) (businesses s))
    by (rewrite Hrow; left).
  apply list_elem_of_filter in Hin as [Heq Hin].
  exists uu, bb, kk, tt. split_and!; try done.
  - unfold created_text, get_default, text_fits in *.
    destruct (content !! "review_text") as [v|]; simpl in *.
    + subst v. by destruct tt.
    + by destruct tt; simplify_eq/=.
  - apply Exists_exists. by exists brow.
  - by rewrite Ht.
Qed.

(** ** Listings *)

Lemma get_reviews_entries s req u :
  get_reviews s req u
  = (s, Response (Arr (review_entry req <$> filter (λ r, r_user_id r = u) (reviews s))) 200).
Proof. done. Qed.

Lemma get_businesses__of_owner_entries s req o :
  get_businesses__of_owner s req o
  = (s, Response (Arr (listed req <$> filter (λ b, b_owner_id b = o) (businesses s))) 200).
Proof. done. Qed.

Lemma review_entry_is_body req r :
  review_body (get_review_request req (r_id r)) r
    (url (get_review_request req (r_id r))) = review_entry req r.
Proof. done. Qed.

Lemma listed_is_body req b :
  <["self" := JStr (base_url (get_request req (b_id b)))]> (business_asdict b)
  = listed req b.
Proof. done. Qed.

Lemma business_link_inj (root : string) (b1 b2 : Z) :
  root +:+ "businesses/" +:+ pretty b1 = root +:+ "businesses/" +:+ pretty b2 → b1 = b2.
Proof.
  intros H. apply (inj (String.app root)) in H.
  apply (inj (String.app "businesses/")) in H. by apply (inj pretty) in H.
Qed.

Lemma review_entry_id req r : review_entry req r !! "id" = Some (JInt (r_id r)).
Proof. done. Qed.

Lemma review_entry_business req r :
  review_entry req r !! "business"
  = Some (JStr (url_root req +:+ "businesses/" +:+ pretty (r_business_id r))).
Proof. done. Qed.

Lemma get_businesses_entries s req offset limit entries next :
  get_businesses s req offset limit = (s, Response (Paged entries next) 200) →
  entries = listed req <$> take (Z.to_nat (default 3 limit))
                             (drop (Z.to_nat (default 0 offset))
                                (merge_sort by_id (businesses s))).
Proof.
  unfold get_businesses, select_businesses_page. case_decide; [|done].
  cbn [mbind result_bind mret result_ret handler]. by intros [= <- _].
Qed.

(** ** What a request can change, and how it can fail *)

Lemma post_business_outcome s req content :
  (post_business s req content).1 = s ∨
  ∃ body, (post_business s req content).2 = Response body 201.
Proof. unfold post_business. run_handler; eauto. Qed.

Lemma put_business_outcome s req i content :
  (put_business s req i content).1 = s ∨
  ∃ body, (put_business s req i content).2 = Response body 200.
Proof. unfold put_business. run_handler; eauto. Qed.

Lemma get_business_unchanged s req i : (get_business s req i).1 = s.
Proof. unfold get_business. by run_handler. Qed.

Lemma get_businesses_unchanged s req offset limit :
  (get_businesses s req offset limit).1 = s.
Proof. unfold get_businesses. by run_handler. Qed.

Lemma get_review_unchanged s req i : (get_review s req i).1 = s.
Proof. unfold get_review. by run_handler. Qed.

(** A DELETE that is answered 404 has found nothing to delete. *)
Lemma delete_business_404_unchanged s req i :
  primary_keys s → referential_integrity s →
  (delete_business s req i).2 ≠ Response Blank 204 →
  (delete_business s req i).1 = s.
Proof.
  intros [Hpk _ _ _] Hri. unfold delete_business.
  pose proof (filter_key_length b_id i (businesses s) Hpk) as Hlen.
  case_decide as Hcount; [done|]. intros _. simpl.
  assert (Hnone : ∀ b, b ∈ businesses s → b_id b ≠ i).
  { apply delete_business_rowcount. lia. }
  rewrite (filter_all (λ b, b_id b ≠ i)) by done.
  rewrite (filter_all (λ r, r_business_id r ≠ i)).
  - by destruct s.
  - intros r (b & Hb & Hid)%Hri. rewrite <-Hid. by apply Hnone.
Qed.

Lemma delete_review_404_unchanged s req i :
  primary_keys s →
  (delete_review s req i).2 ≠ Response Blank 204 →
  (delete_review s req i).1 = s.
Proof.
  intros [_ _ Hpk _]. unfold delete_review.
  pose proof (filter_key_length r_id i (reviews s) Hpk) as Hlen.
  case_decide as Hcount; [done|]. intros _. simpl.
  rewrite (filter_all (λ r, r_id r ≠ i)); [by destruct s|].
  intros r Hr Hid.
  assert (Hin : r ∈ filter (λ r, r_id r = i) (reviews s)) by by apply list_elem_of_filter.
  destruct (filter _ (reviews s)) as [|? [|??]]; simpl in *;
    [by apply elem_of_nil in Hin|done|lia].
Qed.

Lemma one_or_none_key {A K} `{EqDecision K} (key : A → K) (k : K) (l : list A) :
  NoDup (key <$> l) → ∃ o, one_or_none (filter (λ x, key x = k) l) = Ok o.
Proof.
  intros Hl. pose proof (filter_key_length key k l Hl) as Hlen.
  destruct (filter _ l) as [|x [|??]]; simpl in *; [by eexists..|lia].
Qed.

Lemma col_stars_Raise v e : col_stars v = Raise e → e = StoreError.
Proof.
  unfold col_stars. intros [H|(z & _ & H)]%bind_Raise; [by apply col_int_Raise in H|].
  case_decide; congruence.
Qed.

Lemma col_varchar_null_Raise n v e : col_varchar_null n v = Raise e → e = StoreError.
Proof. unfold col_varchar_null. repeat case_match; congruence. Qed.

Lemma insert_review_Raise s user_id business_id stars review_text e :
  insert_review s user_id business_id stars review_text = Raise e → e = StoreError.
Proof.
  unfold insert_review. intros H.
  apply bind_Raise in H as [H|(? & _ & H)]; [by apply col_int_Raise in H|].
  apply bind_Raise in H as [H|(? & _ & H)]; [by apply col_int_Raise in H|].
  apply bind_Raise in H as [H|(? & _ & H)]; [by apply col_stars_Raise in H|].
  apply bind_Raise in H as [H|(? & _ & H)]; [by apply col_varchar_null_Raise in H|].
  done.
Qed.

Lemma update_review_Raise s i stars review_text e :
  update_review s i stars review_text = Raise e → e = StoreError.
Proof.
  unfold update_review. destruct (filter _ _); [done|]. intros H.
  apply bind_Raise in H as [H|(? & _ & H)]; [by apply col_stars_Raise in H|].
  apply bind_Raise in H as [H|(? & _ & H)]; [by apply col_varchar_null_Raise in H|].
  done.
Qed.

Lemma getitem_Raise (content : dict) k e :
  getitem content k = Raise e → e = KeyError k ∧ content !! k = None.
Proof. unfold getitem. destruct (content !! k); [done|]. by intros [= <-]. Qed.

Lemma getitem_present (content : dict) k :
  get_is_none content k = false → ∃ v, getitem content k = Ok v.
Proof.
  intros (v & Hv & _)%get_is_none_false. exists v. by apply getitem_Ok.
Qed.

(** [SELECT .. WHERE id = :param] on a table with unique ids finds at most
    one row, whatever the bound parameter is. *)
Lemma one_or_none_sql_eq {A} (key : A → Z) (v : json) (l : list A) :
  NoDup (key <$> l) → ∃ o, one_or_none (filter (λ x, sql_eq (key x) v) l) = Ok o.
Proof.
  intros Hl. destruct v as [|z|t].
  - rewrite filter_none; [by eexists|]. by intros x _ Hx.
  - rewrite (list_filter_iff _ (λ x, key x = z)); [by apply one_or_none_key|].
    intros x. unfold sql_eq. split; congruence.
  - rewrite filter_none; [by eexists|]. by intros x _ Hx.
Qed.

Lemma one_or_none_review_pair (u b : json) (l : list review) :
  NoDup (review_key <$> l) →
  ∃ o, one_or_none (filter (λ r, sql_eq (r_business_id r) b ∧ sql_eq (r_user_id r) u) l)
       = Ok o.
Proof.
  intros Hl.
  destruct u as [|x|?], b as [|y|?];
    try (rewrite filter_none; [by eexists|]; by intros r _ [Hb Hu]).
  rewrite (list_filter_iff _ (λ r, review_key r = (x, y))); [by apply one_or_none_key|].
  intros r. unfold sql_eq, review_key. split; [intros [??]|intros [=]; split]; congruence.
Qed.

Ltac raised_by_getitem :=
  match goal with
  | H : getitem _ _ = Raise _ |- _ =>
      apply getitem_Raise in H as [-> ?]; simpl; split; [compute_done|done]
  end.

Lemma post_business_raises s req content e :
  (post_business s req content).2 = Raised e → may_raise (PostBusiness req content) e.
Proof.
  unfold post_business. run_handler; simpl; intros Heq; simplify_eq;
    try raised_by_getitem.
  match goal with
  | H : insert_business _ _ _ _ _ _ _ = Raise _ |- _ =>
      by apply insert_business_Raise in H as ->
  end.
Qed.

Lemma put_business_raises s req i content e :
  primary_keys s →
  (put_business s req i content).2 = Raised e → may_raise (PutBusiness req i content) e.
Proof.
  intros [Hpk _ _ _]. unfold put_business.
  destruct (one_or_none_key b_id i (businesses s) Hpk) as [o ->].
  run_handler; simpl; intros Heq; simplify_eq; try raised_by_getitem.
  match goal with
  | H : update_business _ _ _ _ _ _ _ _ = Raise _ |- _ =>
      by apply update_business_Raise in H as ->
  end.
Qed.

Lemma get_business_raises s req i e :
  primary_keys s → (get_business s req i).2 ≠ Raised e.
Proof.
  intros [Hpk _ _ _]. unfold get_business.
  destruct (one_or_none_key b_id i (businesses s) Hpk) as [o ->].
  by destruct o.
Qed.

Lemma get_review_raises s req i e :
  primary_keys s → (get_review s req i).2 ≠ Raised e.
Proof.
  intros [_ _ Hpk _]. unfold get_review.
  destruct (one_or_none_key r_id i (reviews s) Hpk) as [o ->].
  by destruct o.
Qed.

Lemma get_businesses_raises s req offset limit e :
  (get_businesses s req offset limit).2 = Raised e → e = StoreError.
Proof.
  unfold get_businesses, select_businesses_page. case_decide; simpl; congruence.
Qed.

Lemma post_review_raises s req content e :
  primary_keys s → unique_reviews s →
  (post_review s req content).2 = Raised e → e = StoreError.
Proof.
  intros [Hpk _ _ _] Hunique. unfold post_review.
  destruct (_ || _) eqn:Hpresent; [done|].
  apply orb_false_iff in Hpresent as [[Hu Hb]%orb_false_iff Hk].
  destruct (getitem_present _ _ Hu) as [user_id ->].
  destruct (getitem_present _ _ Hb) as [business_id ->].
  destruct (getitem_present _ _ Hk) as [stars ->].
  cbn [mbind result_bind].
  destruct (one_or_none_sql_eq b_id business_id (businesses s) Hpk) as [o ->].
  destruct o as [row|]; cbn [mbind result_bind mret result_ret handler snd]; [|done].
  destruct (one_or_none_review_pair user_id business_id (reviews s) Hunique) as [o ->].
  destruct o as [row'|]; cbn [mbind result_bind mret result_ret handler snd]; [done|].
  destruct (insert_review _ _ _ _ _) as [[s' i]|e'] eqn:Hins; simpl; [done|].
  intros [= <-]. by apply insert_review_Raise in Hins.
Qed.

Lemma put_review_raises s req i content e :
  primary_keys s →
  (put_review s req i content).2 = Raised e → e = StoreError.
Proof.
  intros [_ _ Hpk _]. unfold put_review.
  destruct (get_is_none content "stars") eqn:Hk; [done|].
  destruct (one_or_none_key r_id i (reviews s) Hpk) as [o ->].
  destruct o as [row|]; cbn [mbind result_bind mret result_ret handler snd]; [|done].
  destruct (getitem_present _ _ Hk) as [stars ->]. cbn [mbind result_bind].
  destruct (update_review _ _ _ _) as [s'|e'] eqn:Hupd; simpl; [done|].
  intros [= <-]. by apply update_review_Raise in Hupd.
Qed.

(** ** The column constraints *)

Lemma post_business_rows_fit s req content :
  rows_fit s → rows_fit (post_business s req content).1.
Proof.
  intros [Hb Hr]. unfold post_business. run_handler; try done.
  match goal with
  | H : insert_business _ _ _ _ _ _ _ = Ok _ |- _ =>
      apply insert_business_Ok in H
        as (vo & vn & va & vc & vst & vz & Ho & Hn & Ha & Hc & Hst & Hz & ? & ?)
  end.
  simplify_eq. split; [|done]. simpl.
  intros x [Hx|Hx%list_elem_of_singleton]%elem_of_app; [auto|]. subst x.
  apply col_int_Ok in Ho as [_ Ho]. apply col_varchar_Ok in Hn as [_ Hn].
  apply col_varchar_Ok in Ha as [_ Ha]. apply col_varchar_Ok in Hc as [_ Hc].
  apply col_varchar_Ok in Hst as [_ Hst]. apply col_varchar_Ok in Hz as [_ Hz].
  unfold business_fits, review_fits; simpl; tauto.
Qed.

Lemma put_business_rows_fit s req i content :
  rows_fit s → rows_fit (put_business s req i content).1.
Proof.
  intros [Hb Hr]. unfold put_business. run_handler; try done.
  match goal with
  | H : update_business _ _ _ _ _ _ _ _ = Ok _ |- _ =>
      apply update_business_Ok in H
        as [->|(vo & vn & va & vc & vst & vz & Ho & Hn & Ha & Hc & Hst & Hz & ?)]; [done|]
  end.
  simplify_eq. split; [|done]. simpl.
  intros x (y & -> & Hy)%list_elem_of_fmap. unfold set_business.
  destruct (decide (b_id y = i)); [|auto].
  apply col_int_Ok in Ho as [_ Ho]. apply col_varchar_Ok in Hn as [_ Hn].
  apply col_varchar_Ok in Ha as [_ Ha]. apply col_varchar_Ok in Hc as [_ Hc].
  apply col_varchar_Ok in Hst as [_ Hst]. apply col_varchar_Ok in Hz as [_ Hz].
  unfold business_fits, review_fits; simpl; tauto.
Qed.

Lemma post_review_rows_fit s req content :
  rows_fit s → rows_fit (post_review s req content).1.
Proof.
  intros [Hb Hr]. unfold post_review. run_handler; try done.
  match goal with
  | H : insert_review _ _ _ _ _ = Ok _ |- _ =>
      apply insert_review_Ok in H as (uu & bb & kk & tt & Hu & Hbb & Hk & Ht & ? & ?)
  end.
  simplify_eq. split; [done|]. simpl.
  intros x [Hx|Hx%list_elem_of_singleton]%elem_of_app; [auto|]. subst x.
  apply col_int_Ok in Hu as [_ Hu]. apply col_int_Ok in Hbb as [_ Hbb].
  apply col_stars_Ok in Hk as [_ Hk]. apply col_varchar_null_Ok in Ht as [_ Ht].
  unfold business_fits, review_fits; simpl; tauto.
Qed.

Lemma put_review_rows_fit s req i content :
  rows_fit s → rows_fit (put_review s req i content).1.
Proof.
  intros [Hb Hr]. unfold put_review. run_handler; try done.
  match goal with
  | H : update_review _ _ _ _ = Ok _ |- _ =>
      apply update_review_Ok in H as [->|(kk & tt & Hk & Ht & ?)]; [done|]
  end.
  simplify_eq. split; [done|]. simpl.
  intros x (y & -> & Hy)%list_elem_of_fmap. unfold set_review.
  destruct (decide (r_id y = i)); [|auto].
  apply col_stars_Ok in Hk as [_ Hk]. apply col_varchar_null_Ok in Ht as [_ Ht].
  destruct (Hr y Hy) as (? & ? & _ & _). unfold review_fits; simpl; tauto.
Qed.

Lemma dispatch_rows_fit s c : rows_fit s → rows_fit (dispatch s c).1.
Proof.
  intros Hfit. destruct c; simpl.
  - by apply post_business_rows_fit.
  - by rewrite get_business_unchanged.
  - by rewrite get_businesses_unchanged.
  - done.
  - by apply put_business_rows_fit.
  - destruct Hfit as [Hb Hr]. unfold delete_business.
    case_decide; split; simpl; intros x [_ Hx]%list_elem_of_filter; auto.
  - by apply post_review_rows_fit.
  - by rewrite get_review_unchanged.
  - by apply put_review_rows_fit.
  - done.
  - destruct Hfit as [Hb Hr]. unfold delete_review.
    case_decide; split; simpl; [done| |done|];
      intros x [_ Hx]%list_elem_of_filter; auto.
Qed.

(** The exceptions of a request, in a store with unique ids and unique
    (user, business) pairs. *)
Lemma dispatch_may_raise s c e :
  primary_keys s → unique_reviews s →
  (dispatch s c).2 = Raised e → may_raise c e.
Proof.
  intros Hpk Hunique.
  destruct c as [req content|req i|req offset limit|req o|req i content|req i
                |req content|req i|req i content|req u|req i]; simpl.
  - apply post_business_raises.
  - intros H. by destruct (get_business_raises s req i e Hpk).
  - by intros ->%get_businesses_raises.
  - done.
  - by apply put_business_raises.
  - unfold delete_business. by case_decide.
  - by intros ->%post_review_raises.
  - intros H. by destruct (get_review_raises s req i e Hpk).
  - by intros ->%put_review_raises.
  - done.
  - unfold delete_review. by case_decide.
Qed.

(** * The claims of the specification *)

(** C1. In every store reachable from the empty tables by serving requests one
    after the other, no two reviews have the same (user_id, business_id):
    Create(Review) for a pair that already has a review answers 409
    ReviewConflict and writes nothing, and Update(Review) changes neither
    user_id nor business_id (nor id) of any row. *)
Theorem review_pair_unique s :
  reachable s →
  NoDup (review_key <$> reviews s) ∧
  (∀ req content u b,
     content !! "user_id" = Some (JInt u) →
     content !! "business_id" = Some (JInt b) →
     get_is_none content "stars" = false →
     (u, b) ∈ (review_key <$> reviews s) →
     post_review s req content = (s, Response (Obj ERROR_REVIEW_CONFLICT) 409)) ∧
  (∀ req review_id content,
     (λ r, (r_id r, r_user_id r, r_business_id r))
       <$> reviews (put_review s req review_id content).1
     = (λ r, (r_id r, r_user_id r, r_business_id r)) <$> reviews s).
Proof.
  intros Hs. split_and!.
  - by apply reachable_unique_reviews.
  - intros req content u b Hu Hb Hstars (r & [= -> ->] & Hr)%list_elem_of_fmap.
    apply get_is_none_false in Hstars as (stars & Hstars & Hnull).
    destruct (reachable_referential_integrity s Hs r Hr) as (x & Hx & Hid).
    eapply post_review_conflict; try done.
    + by apply reachable_primary_keys.
    + by apply reachable_unique_reviews.
    + apply Exists_exists. exists x. split; [done|]. by rewrite Hid.
    + apply Exists_exists. by exists r.
  - intros req review_id content. apply put_review_frame.
Qed.

Lemma review_pair_unique_witness :
  reachable example_store ∧
  NoDup (review_key <$> reviews example_store) ∧
  post_review example_store (localhost "reviews") (example_review 3 1 2)
  = (example_store, Response (Obj ERROR_REVIEW_CONFLICT) 409).
Proof.
  assert (Hs : reachable example_store) by apply reachable_serve, reachable_init.
  destruct (review_pair_unique example_store Hs) as (Hunique & Hconflict & _).
  split_and!; [done|done|].
  apply (Hconflict _ _ 3 1); [reflexivity|reflexivity|reflexivity|].
  vm_compute. apply list_elem_of_here.
Defined.

(** C5. Referential integrity holds in every store reachable from the empty
    tables by serving requests one after the other, not only when a review is
    created: the business_id of every stored review is the id of a stored
    business. *)
Theorem review_business_exists s :
  reachable s →
  ∀ r, r ∈ reviews s → ∃ b, b ∈ businesses s ∧ b_id b = r_business_id r.
Proof. apply reachable_referential_integrity. Qed.

Lemma review_business_exists_witness :
  reachable example_store ∧ example_review_row ∈ reviews example_store ∧
  ∃ b, b ∈ businesses example_store ∧ b_id b = r_business_id example_review_row.
Proof.
  assert (Hs : reachable example_store) by apply reachable_serve, reachable_init.
  assert (Hr : example_review_row ∈ reviews example_store)
    by (vm_compute; apply list_elem_of_here).
  split_and!; [done|done|]. exact (review_business_exists example_store Hs _ Hr).
Defined.

(** C9. Every stored review has 0 <= stars <= 5 in every reachable store, and
    Create(Review) or Update(Review) with an integer [stars] outside that range
    does not succeed and leaves the store as it was.  The handlers do not test
    the range: the refusal is the store's [CHECK] in [col_stars]. *)
Theorem stars_within_bounds :
  (∀ s, reachable s → ∀ r, r ∈ reviews s → 0 ≤ r_stars r ≤ 5) ∧
  (∀ s req content k,
     content !! "stars" = Some (JInt k) → ¬ (0 ≤ k ≤ 5) →
     (post_review s req content).1 = s ∧ ¬ succeeded (post_review s req content).2) ∧
  (∀ s req review_id content k,
     content !! "stars" = Some (JInt k) → ¬ (0 ≤ k ≤ 5) →
     (put_review s req review_id content).1 = s ∧
     ¬ succeeded (put_review s req review_id content).2).
Proof.
  split; [|split].
  - intros s Hs r Hr. by apply (reachable_review_columns s Hs).
  - apply post_review_stars_refused.
  - apply put_review_stars_refused.
Qed.

Lemma stars_within_bounds_witness :
  (0 ≤ r_stars example_review_row ≤ 5) ∧
  ((post_review example_store (localhost "reviews") (example_review 9 1 6)).1 = example_store ∧
   ¬ succeeded (post_review example_store (localhost "reviews") (example_review 9 1 6)).2) ∧
  ((put_review example_store (localhost "reviews/1") 1 {[ "stars" := JInt 6 ]}).1 = example_store ∧
   ¬ succeeded (put_review example_store (localhost "reviews/1") 1 {[ "stars" := JInt 6 ]}).2).
Proof.
  destruct stars_within_bounds as (Hrange & Hpost & Hput).
  split; [|split].
  - apply (Hrange example_store).
    + apply reachable_serve, reachable_init.
    + vm_compute. apply list_elem_of_here.
  - apply (Hpost _ _ _ 6); [reflexivity|lia].
  - apply (Hput _ _ _ _ 6); [reflexivity|lia].
Defined.




(** C7, as stated, fails: with [stars] = 6 on an existing review the body has
    stars and the row exists, but the store refuses the update: nothing is
    overwritten and no representation is answered. *)
Lemma put_review_updates_counterexample :
  get_is_none {[ "stars" := JInt 6 ]} "stars" = false ∧
  example_review_row ∈ reviews example_store ∧
  r_id example_review_row = 1 ∧
  put_review example_store (localhost "reviews/1") 1 {[ "stars" := JInt 6 ]}
  = (example_store, Raised StoreError).
Proof.
  split_and!; [reflexivity| |reflexivity|reflexivity].
  vm_compute. apply list_elem_of_here.
Qed.

(** C7, amended.  Update(Review) answers 400 MissingAttributes when stars is absent (or
    null) and 404 ReviewNotFound when no review has that id; otherwise, for a
    stars value the store accepts, it overwrites stars, overwrites review_text
    when the body supplies it and keeps the stored review_text when the body
    omits it, leaves id, user_id and business_id as they were, and answers with
    the updated representation, its business link and its self link. *)
Theorem put_review_updates s req review_id content :
  reachable s →
  (content !! "stars" = None ∨ content !! "stars" = Some JNull →
   put_review s req review_id content
   = (s, Response (Obj ERROR_MISSING_ATTRIBUTES) 400)) ∧
  (∀ stars,
     content !! "stars" = Some stars → stars ≠ JNull →
     ((∀ r, r ∈ reviews s → r_id r ≠ review_id) →
      put_review s req review_id content
      = (s, Response (Obj ERROR_REVIEW_NOT_FOUND) 404)) ∧
     (∀ r k t,
        r ∈ reviews s → r_id r = review_id →
        stars = JInt k → 0 ≤ k ≤ 5 →
        updated_text content (r_review_text r) t →
        ∃ body,
          put_review s req review_id content =
            ({| businesses := businesses s;
                reviews := set_review review_id k t <$> reviews s;
                businesses_seq := businesses_seq s;
                reviews_seq := reviews_seq s |},
             Response (Obj body) 200) ∧
          set_review review_id k t r =
            {| r_id := r_id r; r_user_id := r_user_id r;
               r_business_id := r_business_id r;
               r_stars := k; r_review_text := t |} ∧
          (∀ x, x ∈ reviews s → r_id x ≠ review_id → set_review review_id k t x = x) ∧
          body !! "id" = Some (JInt (r_id r)) ∧
          body !! "user_id" = Some (JInt (r_user_id r)) ∧
          body !! "stars" = Some (JInt k) ∧
          body !! "review_text" = Some (json_of_text t) ∧
          body !! "business"
          = Some (JStr (url_root req +:+ "businesses/" +:+ pretty (r_business_id r))) ∧
          body !! "self" = Some (JStr (url req)))).
Proof.
  intros Hs. split.
  - intros Habsent. apply put_review_missing. by apply get_is_none_true.
  - intros stars Hstars Hnull.
    assert (Hpresent : get_is_none content "stars" = false)
      by (apply get_is_none_false; eauto).
    split; [by apply put_review_not_found|].
    intros r k t Hr Hid -> Hk Ht.
    assert (Hstore : storable_text
              (get_default content "review_text" (json_of_text (r_review_text r))) t).
    { unfold updated_text, get_default in *.
      destruct (content !! "review_text"); simpl; [done|]. subst t.
      destruct (reachable_review_columns s Hs r Hr) as [_ Hfits].
      destruct (r_review_text r); simpl; done. }
    eexists. split; [|split_and!].
    + apply put_review_updated; try done. by apply reachable_primary_keys.
    + unfold set_review. by rewrite decide_True.
    + intros x _ Hx. unfold set_review. by rewrite decide_False.
    + done.
    + done.
    + done.
    + replace (get_default content "review_text" (json_of_text (r_review_text r)))
        with (json_of_text t); [done|].
      destruct (get_default _ _ _); simpl in Hstore; [by subst t|done|].
      by destruct Hstore as [-> _].
    + done.
    + done.
Qed.

Lemma put_review_updates_witness :
  reachable example_store ∧
  put_review example_store (localhost "reviews/1") 1 ∅
  = (example_store, Response (Obj ERROR_MISSING_ATTRIBUTES) 400) ∧
  put_review example_store (localhost "reviews/8") 8 {[ "stars" := JInt 2 ]}
  = (example_store, Response (Obj ERROR_REVIEW_NOT_FOUND) 404) ∧
  ∃ body,
    put_review example_store (localhost "reviews/1") 1 {[ "stars" := JInt 2 ]}
    = ({| businesses := [example_business_row];
          reviews := [{| r_id := 1; r_user_id := 3; r_business_id := 1; r_stars := 2;
                         r_review_text := Some "" |}];
          businesses_seq := 2; reviews_seq := 2 |},
       Response (Obj body) 200) ∧
    body !! "review_text" = Some (JStr "") ∧
    body !! "self" = Some (JStr "http://localhost:8080/reviews/1").
Proof.
  assert (Hs : reachable example_store) by apply reachable_serve, reachable_init.
  split; [done|]. split_and!.
  - apply (put_review_updates example_store _ _ _ Hs). by left.
  - destruct (put_review_updates example_store (localhost "reviews/8") 8
                {[ "stars" := JInt 2 ]} Hs) as (_ & H).
    destruct (H (JInt 2)) as (H404 & _); [done..|].
    apply H404. intros r Hr. vm_compute in Hr.
    apply list_elem_of_singleton in Hr as ->. done.
  - destruct (put_review_updates example_store (localhost "reviews/1") 1
                {[ "stars" := JInt 2 ]} Hs) as (_ & H).
    destruct (H (JInt 2)) as (_ & H200); [done..|].
    destruct (H200 example_review_row 2 (Some ""))
      as (body & Hput & _ & _ & _ & _ & _ & Htext & _ & Hself);
      [vm_compute; apply list_elem_of_here|done..|].
    exists body. split_and!; [exact Hput|exact Htext|exact Hself].
Defined.

(** C2. Delete(Business) removes every review whose business_id is the given
    id, whether or not there is one, and the business row itself.  It answers
    404 BusinessNotFound exactly when the business deletion removed no row,
    that is when no business had that id, and 204 with an empty body
    otherwise.  After a 204, Get on the business and Get on any review that
    referred to it answer 404. *)
Theorem delete_business_cascade s req business_id :
  reachable s →
  let rowcount := length (filter (λ b, b_id b = business_id) (businesses s)) in
  let s' := (delete_business s req business_id).1 in
  let out := (delete_business s req business_id).2 in
  reviews s' = filter (λ r, r_business_id r ≠ business_id) (reviews s) ∧
  businesses s' = filter (λ b, b_id b ≠ business_id) (businesses s) ∧
  (rowcount = 0%nat ↔ ∀ b, b ∈ businesses s → b_id b ≠ business_id) ∧
  (out = Response (Obj ERROR_BUSINESS_NOT_FOUND) 404 ↔ rowcount = 0%nat) ∧
  (out = Response Blank 204 ↔ rowcount ≠ 0%nat) ∧
  (out = Response Blank 204 →
   (∀ req', get_business s' req' business_id
            = (s', Response (Obj ERROR_BUSINESS_NOT_FOUND) 404)) ∧
   (∀ req' r, r ∈ reviews s → r_business_id r = business_id →
              get_review s' req' (r_id r)
              = (s', Response (Obj ERROR_REVIEW_NOT_FOUND) 404))).
Proof.
  intros Hs rowcount s' out.
  destruct (reachable_primary_keys s Hs) as [Hb _ Hr _].
  assert (Hcount : (rowcount ≤ 1)%nat) by by apply filter_key_length.
  assert (Hreviews : reviews s' = filter (λ r, r_business_id r ≠ business_id) (reviews s))
    by (subst s'; unfold delete_business; by case_decide).
  assert (Hbusinesses : businesses s' = filter (λ b, b_id b ≠ business_id) (businesses s))
    by (subst s'; unfold delete_business; by case_decide).
  assert (Hout : out = if decide (rowcount = 1%nat) then Response Blank 204
                       else Response (Obj ERROR_BUSINESS_NOT_FOUND) 404)
    by (subst out rowcount; unfold delete_business; by case_decide).
  split_and!; try done.
  - apply delete_business_rowcount.
  - rewrite Hout. case_decide; split; try done; lia.
  - rewrite Hout. case_decide; split; try done; lia.
  - intros _. split.
    + intros req'. apply get_business_not_found. rewrite Hbusinesses.
      by intros b [Hne _]%list_elem_of_filter.
    + intros req' r Hin Hid. apply get_review_not_found. rewrite Hreviews.
      intros x [Hne Hx]%list_elem_of_filter Heq.
      apply Hne. rewrite <-Hid. f_equal. by apply (key_inj r_id x r (reviews s)).
Qed.

Lemma delete_business_cascade_witness :
  reachable example_store ∧
  reviews (delete_business example_store (localhost "businesses/1") 1).1 = [] ∧
  businesses (delete_business example_store (localhost "businesses/1") 1).1 = [] ∧
  (delete_business example_store (localhost "businesses/1") 1).2 = Response Blank 204 ∧
  get_review (delete_business example_store (localhost "businesses/1") 1).1
    (localhost "reviews/1") (r_id example_review_row)
  = ((delete_business example_store (localhost "businesses/1") 1).1,
     Response (Obj ERROR_REVIEW_NOT_FOUND) 404) ∧
  (delete_business example_store (localhost "businesses/5") 5).2
  = Response (Obj ERROR_BUSINESS_NOT_FOUND) 404.
Proof.
  assert (Hs : reachable example_store) by apply reachable_serve, reachable_init.
  destruct (delete_business_cascade example_store (localhost "businesses/1") 1 Hs)
    as (Hr & Hb & _ & _ & H204 & Hget).
  assert (Hout : (delete_business example_store (localhost "businesses/1") 1).2
                 = Response Blank 204) by (apply H204; vm_compute; lia).
  split; [done|]. split_and!.
  - rewrite Hr. reflexivity.
  - rewrite Hb. reflexivity.
  - exact Hout.
  - apply (Hget Hout); [vm_compute; apply list_elem_of_here|reflexivity].
  - apply (delete_business_cascade example_store (localhost "businesses/5") 5 Hs).
    reflexivity.
Defined.

(** C4, as stated, fails: a body of six fields that lacks [zip_code] and has a
    field of its own passes the count in both handlers, which then raise
    [KeyError] instead of answering 400. *)
Lemma business_field_count_counterexample :
  business_without_zip_code !! "zip_code" = None ∧
  "country" ∈ dom business_without_zip_code ∧
  ("country" ∉ required_business_fields) ∧
  post_business empty_db (localhost "businesses") business_without_zip_code
  = (empty_db, Raised (KeyError "zip_code")) ∧
  put_business example_store (localhost "businesses/1") 1 business_without_zip_code
  = (example_store, Raised (KeyError "zip_code")).
Proof.
  split_and!; [reflexivity|compute_done|compute_done|reflexivity|reflexivity].
Qed.

(** C4, amended.  Create(Business) and Update(Business) answer 400
    MissingAttributes exactly when the body does not have six fields.  So a
    body whose fields are some but not all of the six required ones answers
    400, a body with the six required fields and more answers 400, and a body
    with exactly the six required fields passes validation: it is not answered
    400 and no field lookup fails. *)
Theorem business_field_count s req business_id content :
  (size content ≠ 6%nat →
   post_business s req content = (s, Response (Obj ERROR_MISSING_ATTRIBUTES) 400) ∧
   put_business s req business_id content
   = (s, Response (Obj ERROR_MISSING_ATTRIBUTES) 400)) ∧
  ((∃ body, (post_business s req content).2 = Response body 400) ↔ size content ≠ 6%nat) ∧
  ((∃ body, (put_business s req business_id content).2 = Response body 400)
   ↔ size content ≠ 6%nat) ∧
  (dom content ⊂ required_business_fields ∨ required_business_fields ⊂ dom content →
   post_business s req content = (s, Response (Obj ERROR_MISSING_ATTRIBUTES) 400) ∧
   put_business s req business_id content
   = (s, Response (Obj ERROR_MISSING_ATTRIBUTES) 400)) ∧
  (dom content = required_business_fields →
   ∀ body k,
     (post_business s req content).2 ≠ Response body 400 ∧
     (post_business s req content).2 ≠ Raised (KeyError k) ∧
     (put_business s req business_id content).2 ≠ Response body 400 ∧
     (put_business s req business_id content).2 ≠ Raised (KeyError k)).
Proof.
  assert (H400 : size content ≠ 6%nat →
    post_business s req content = (s, Response (Obj ERROR_MISSING_ATTRIBUTES) 400) ∧
    put_business s req business_id content
    = (s, Response (Obj ERROR_MISSING_ATTRIBUTES) 400)).
  { intros Hsize. split; [by apply post_business_400|by apply put_business_400]. }
  split_and!.
  - exact H400.
  - split.
    + intros [body Hbody]. destruct (decide (size content = 6%nat)) as [Hsize|]; [|done].
      by destruct (post_business_not_400 s req content body Hsize).
    + intros Hsize. destruct (H400 Hsize) as [-> _]. by eexists.
  - split.
    + intros [body Hbody]. destruct (decide (size content = 6%nat)) as [Hsize|]; [|done].
      by destruct (put_business_not_400 s req business_id content body Hsize).
    + intros Hsize. destruct (H400 Hsize) as [_ ->]. by eexists.
  - intros Hdom. apply H400. rewrite <-size_dom, <-required_business_fields_size.
    destruct Hdom as [Hlt%subset_size|Hlt%subset_size]; lia.
  - intros Hdom body k.
    assert (Hsize : size content = 6%nat)
      by (by rewrite <-size_dom, Hdom, required_business_fields_size).
    split_and!.
    + by apply post_business_not_400.
    + by apply post_business_no_KeyError.
    + by apply put_business_not_400.
    + by apply put_business_no_KeyError.
Qed.

Lemma business_field_count_witness :
  (post_business example_store (localhost "businesses") {[ "name" := JStr "Cafe" ]}
   = (example_store, Response (Obj ERROR_MISSING_ATTRIBUTES) 400) ∧
   put_business example_store (localhost "businesses") 1 {[ "name" := JStr "Cafe" ]}
   = (example_store, Response (Obj ERROR_MISSING_ATTRIBUTES) 400)) ∧
  (post_business example_store (localhost "businesses")
     (<["country" := JStr "US"]> example_business)
   = (example_store, Response (Obj ERROR_MISSING_ATTRIBUTES) 400) ∧
   put_business example_store (localhost "businesses") 1
     (<["country" := JStr "US"]> example_business)
   = (example_store, Response (Obj ERROR_MISSING_ATTRIBUTES) 400)) ∧
  (post_business example_store (localhost "businesses") example_business).2
  ≠ Response (Obj ERROR_MISSING_ATTRIBUTES) 400.
Proof.
  split; [|split].
  - destruct (business_field_count example_store (localhost "businesses") 1
                {[ "name" := JStr "Cafe" ]}) as (_ & _ & _ & Hsub & _).
    apply Hsub. left. compute_done.
  - destruct (business_field_count example_store (localhost "businesses") 1
                (<["country" := JStr "US"]> example_business)) as (_ & _ & _ & Hsub & _).
    apply Hsub. right. compute_done.
  - destruct (business_field_count example_store (localhost "businesses") 1
                example_business) as (_ & _ & _ & _ & Hsix).
    apply (Hsix ltac:(compute_done) (Obj ERROR_MISSING_ATTRIBUTES) "").
Defined.

(** C6, as stated, fails: a negative offset or limit is an integer the query
    can carry, the store refuses it, and the handler answers no page. *)
Lemma get_businesses_page_counterexample :
  get_businesses example_store (localhost "businesses") (Some (-1)) (Some 3)
  = (example_store, Raised StoreError) ∧
  get_businesses example_store (localhost "businesses") None (Some (-1))
  = (example_store, Raised StoreError).
Proof. split; reflexivity. Qed.

(** C6, amended.  For non-negative offset and limit (0 and 3 when the query omits them)
    List(Business) answers 200 with the businesses in ascending order of id,
    without the first [offset] of them and cut at [limit], each entry with its
    self link, and with a next link for offset + limit and the same limit,
    whether or not rows remain.  With the ids 1..5 stored, offset 0 and limit 3
    give the entries 1, 2, 3 and the next link offset=3&limit=3; offset 5 and
    limit 3 give no entry. *)
Theorem get_businesses_page :
  (∀ s req offset limit,
     let off := default 0 offset in
     let lim := default 3 limit in
     0 ≤ off → 0 ≤ lim →
     ∃ rows,
       rows ≡ₚ businesses s ∧ Sorted (λ a b, b_id a ≤ b_id b) rows ∧
       let page := take (Z.to_nat lim) (drop (Z.to_nat off) rows) in
       get_businesses s req offset limit
       = (s, Response (Paged (listed req <$> page) (next_page req off lim)) 200) ∧
       (length page ≤ Z.to_nat lim)%nat ∧
       (∀ row, listed req row !! "id" = Some (JInt (b_id row)) ∧
               listed req row !! "self"
               = Some (JStr (url_root req +:+ "businesses/" +:+ pretty (b_id row))))) ∧
  (∀ s req,
     b_id <$> businesses s ≡ₚ [1; 2; 3; 4; 5] →
     (∃ entries,
        get_businesses s req (Some 0) (Some 3)
        = (s, Response (Paged entries (url_root req +:+ "businesses?offset=3&limit=3")) 200) ∧
        (λ d : dict, d !! "id") <$> entries = [Some (JInt 1); Some (JInt 2); Some (JInt 3)]) ∧
     get_businesses s req (Some 5) (Some 3)
     = (s, Response (Paged [] (url_root req +:+ "businesses?offset=8&limit=3")) 200)).
Proof.
  split.
  - intros s req offset limit off lim Hoff Hlim.
    exists (merge_sort by_id (businesses s)).
    split; [apply merge_sort_Permutation|].
    split; [apply (Sorted_merge_sort by_id)|].
    intros page. split; [by apply get_businesses_rows|].
    split; [subst page; rewrite length_take; lia|done].
  - intros s req Hids.
    assert (Hrows : b_id <$> merge_sort by_id (businesses s) = [1; 2; 3; 4; 5]).
    { apply sorted_ids_1_5; [apply (Sorted_merge_sort by_id)|].
      by rewrite merge_sort_Permutation. }
    split.
    + eexists. split; [by apply get_businesses_rows|].
      rewrite <-list_fmap_compose.
      rewrite (list_fmap_ext _ (λ row, Some (JInt (b_id row))) _)
        by (intros; apply listed_id).
      change (λ row, Some (JInt (b_id row))) with ((Some ∘ JInt) ∘ b_id).
      rewrite list_fmap_compose, fmap_take, fmap_drop, Hrows. done.
    + rewrite get_businesses_rows by done.
      rewrite drop_ge; [done|].
      rewrite <-(length_fmap b_id), Hrows. simpl. lia.
Qed.

Lemma get_businesses_page_witness :
  (∃ rows,
     rows ≡ₚ businesses example_store ∧
     get_businesses example_store (localhost "businesses") None None
     = (example_store,
        Response (Paged (listed (localhost "businesses") <$> take 3 rows)
                    "http://localhost:8080/businesses?offset=3&limit=3") 200)) ∧
  (∃ entries,
     get_businesses five_businesses (localhost "businesses") (Some 0) (Some 3)
     = (five_businesses,
        Response (Paged entries "http://localhost:8080/businesses?offset=3&limit=3") 200) ∧
     (λ d : dict, d !! "id") <$> entries = [Some (JInt 1); Some (JInt 2); Some (JInt 3)]).
Proof.
  destruct get_businesses_page as [Hpage Hfive]. split.
  - destruct (Hpage example_store (localhost "businesses") None None)
      as (rows & Hperm & _ & Hget & _); [simpl; lia..|].
    exists rows. split; [exact Hperm|exact Hget].
  - apply (Hfive five_businesses (localhost "businesses")).
    vm_compute. reflexivity.
Defined.

(** C8. For a body with exactly the six required fields, of the types and
    sizes of their columns, Create(Business) answers 201 with the id the store
    generated, and Get with that id then answers the business with the
    owner_id, name, street_address, city, state and zip_code of the body. *)
Theorem post_business_get_roundtrip s req req' content o n a c st z :
  reachable s → valid_business content o n a c st z →
  ∃ s' body body',
    post_business s req content = (s', Response (Obj body) 201) ∧
    body !! "id" = Some (JInt (businesses_seq s)) ∧
    get_business s' req' (businesses_seq s) = (s', Response (Obj body') 200) ∧
    body' !! "id" = Some (JInt (businesses_seq s)) ∧
    ∀ k, k ∈ required_business_fields → body' !! k = content !! k.
Proof.
  intros Hs Hvalid. rewrite (post_business_created _ _ _ _ _ _ _ _ _ Hvalid).
  eexists _, _, _. split_and!; [done|done| | |].
  - apply (get_business_new s _ req'
             {| b_id := businesses_seq s; b_owner_id := o; b_name := n;
                b_street_address := a; b_city := c; b_state := st; b_zip_code := z |});
      [by apply reachable_primary_keys|done..].
  - done.
  - destruct Hvalid as [_ [Ho _] [Hn _] [Ha _] [Hc _] [Hst _] [Hz _]].
    intros k Hk. unfold required_business_fields in Hk. set_unfold in Hk.
    destruct Hk as [[[[[->| ->]| ->]| ->]| ->]| ->];
      [rewrite Ho|rewrite Hn|rewrite Ha|rewrite Hc|rewrite Hst|rewrite Hz]; done.
Qed.

Lemma post_business_get_roundtrip_witness :
  ∃ s' body body',
    post_business example_store (localhost "businesses") example_business
    = (s', Response (Obj body) 201) ∧
    body !! "id" = Some (JInt 2) ∧
    get_business s' (localhost "businesses/2") 2 = (s', Response (Obj body') 200) ∧
    body' !! "id" = Some (JInt 2) ∧
    ∀ k, k ∈ required_business_fields → body' !! k = example_business !! k.
Proof.
  apply (post_business_get_roundtrip example_store (localhost "businesses")
           (localhost "businesses/2") example_business
           7 "Cafe" "1 Main St" "Corvallis" "OR" "97330").
  - apply reachable_serve, reachable_init.
  - split; [compute_done|split; [reflexivity|compute_done]..].
Defined.

(** C10, on the code.  The self link of a 201 of Create(Business), requested
    at the collection URL, is that URL with the id glued to it, without the
    slash: it is not the self link that Get on the new id answers, the URL of
    the business. *)
Theorem post_business_self_link s req content s' body :
  reachable s → path req = route_businesses → query_string req = "" →
  post_business s req content = (s', Response (Obj body) 201) →
  ∃ i body',
    body !! "id" = Some (JInt i) ∧
    body !! "self" = Some (JStr (url_root req +:+ "businesses" +:+ pretty i)) ∧
    get_business s' (get_request req i) i = (s', Response (Obj body') 200) ∧
    body' !! "self" = Some (JStr (url_root req +:+ "businesses/" +:+ pretty i)) ∧
    body !! "self" ≠ body' !! "self".
Proof.
  intros Hs Hpath Hquery (row & Hid & Hrows & Hbid & Hself)%post_business_201.
  exists (businesses_seq s). eexists. split_and!.
  - done.
  - rewrite Hself. unfold url, base_url. rewrite Hquery, Hpath. simpl.
    by rewrite string_app_assoc.
  - apply get_business_new; [by apply reachable_primary_keys|done..].
  - done.
  - rewrite Hself. unfold url, base_url. rewrite Hquery, Hpath. simpl.
    rewrite lookup_insert_eq. intros [= H]. revert H.
    rewrite string_app_assoc. apply self_link_mismatch.
Qed.

Lemma post_business_self_link_witness :
  ∃ i body',
    (post_business empty_db (localhost "businesses") example_business).2
    = Response (Obj (list_to_map
        [("id", JInt 1); ("owner_id", JInt 7); ("name", JStr "Cafe");
         ("street_address", JStr "1 Main St"); ("city", JStr "Corvallis");
         ("state", JStr "OR"); ("zip_code", JStr "97330");
         ("self", JStr "http://localhost:8080/businesses1")])) 201 ∧
    i = 1 ∧
    get_business (post_business empty_db (localhost "businesses") example_business).1
      (localhost "businesses/1") i
    = ((post_business empty_db (localhost "businesses") example_business).1,
       Response (Obj body') 200) ∧
    body' !! "self" = Some (JStr "http://localhost:8080/businesses/1").
Proof.
  destruct (post_business_self_link empty_db (localhost "businesses") example_business
              (post_business empty_db (localhost "businesses") example_business).1
              (list_to_map
                 [("id", JInt 1); ("owner_id", JInt 7); ("name", JStr "Cafe");
                  ("street_address", JStr "1 Main St"); ("city", JStr "Corvallis");
                  ("state", JStr "OR"); ("zip_code", JStr "97330");
                  ("self", JStr "http://localhost:8080/businesses1")]))
    as (i & body' & Hid & _ & Hget & Hself & _);
    [apply reachable_init|reflexivity..|].
  assert (i = 1) as -> by (vm_compute in Hid; congruence).
  exists 1, body'. split_and!; [reflexivity|reflexivity|exact Hget|exact Hself].
Defined.

(** * Further properties of the handlers *)

(** X1. Create(Business) with a body of six fields that are not the six
    required ones raises [KeyError] on the first required field, in the order
    the handler reads them, that the body lacks, and writes nothing. *)
Theorem post_business_missing_field s req content :
  size content = 6%nat → dom content ≠ required_business_fields →
  ∃ k, k ∈ required_business_fields ∧ content !! k = None ∧
       first_missing post_business_reads content = Some k ∧
       post_business s req content = (s, Raised (KeyError k)).
Proof.
  intros Hsize Hdom.
  destruct (six_fields_missing content Hsize Hdom) as (k0 & Hk0 & Hnone).
  destruct (first_missing_exists post_business_reads content k0) as [k Hk];
    [by apply post_business_reads_required|done|].
  destruct (first_missing_Some _ _ _ Hk) as [Hin Hmiss].
  exists k. split_and!; [by apply post_business_reads_required|done|done|].
  by apply post_business_KeyError.
Qed.

Lemma post_business_missing_field_witness :
  ∃ k, k ∈ required_business_fields ∧ business_without_zip_code !! k = None ∧
       first_missing post_business_reads business_without_zip_code = Some k ∧
       post_business example_store (localhost "businesses") business_without_zip_code
       = (example_store, Raised (KeyError k)).
Proof.
  apply (post_business_missing_field example_store (localhost "businesses")
           business_without_zip_code); compute_done.
Defined.

(** X2. Update(Business) with a body of six fields looks the business up
    before it reads the fields: for an id that is not stored it answers 404
    whatever the six fields are, and for a stored id a body that lacks a
    required field raises [KeyError] on the first one it reads and writes
    nothing. *)
Theorem put_business_check_order s req i content :
  reachable s → size content = 6%nat →
  ((∀ b, b ∈ businesses s → b_id b ≠ i) →
   put_business s req i content = (s, Response (Obj ERROR_BUSINESS_NOT_FOUND) 404)) ∧
  ((∃ b, b ∈ businesses s ∧ b_id b = i) →
   dom content ≠ required_business_fields →
   ∃ k, k ∈ required_business_fields ∧ content !! k = None ∧
        first_missing put_business_reads content = Some k ∧
        put_business s req i content = (s, Raised (KeyError k))).
Proof.
  intros Hs Hsize. split; [by apply put_business_absent|].
  intros (b & Hb & Hid) Hdom.
  destruct (six_fields_missing content Hsize Hdom) as (k0 & Hk0 & Hnone).
  destruct (first_missing_exists put_business_reads content k0) as [k Hk];
    [by apply put_business_reads_required|done|].
  destruct (first_missing_Some _ _ _ Hk) as [Hin Hmiss].
  exists k. split_and!; [by apply put_business_reads_required|done|done|].
  eapply put_business_KeyError; [by apply reachable_primary_keys|done..].
Qed.

Lemma put_business_check_order_witness :
  put_business example_store (localhost "businesses/9") 9 business_without_zip_code
  = (example_store, Response (Obj ERROR_BUSINESS_NOT_FOUND) 404) ∧
  ∃ k, k ∈ required_business_fields ∧ business_without_zip_code !! k = None ∧
       first_missing put_business_reads business_without_zip_code = Some k ∧
       put_business example_store (localhost "businesses/1") 1 business_without_zip_code
       = (example_store, Raised (KeyError k)).
Proof.
  assert (Hs : reachable example_store) by apply reachable_serve, reachable_init.
  split.
  - apply (put_business_check_order example_store (localhost "businesses/9") 9
             business_without_zip_code Hs); [compute_done|].
    intros b Hb. vm_compute in Hb. apply list_elem_of_singleton in Hb as ->. done.
  - apply (put_business_check_order example_store (localhost "businesses/1") 1
             business_without_zip_code Hs); [compute_done| |compute_done].
    exists example_business_row. split; [vm_compute; apply list_elem_of_here|done].
Defined.
(** X3. Update(Business) replaces the row: for a stored id and a valid body it
    answers 200 with the id and the request URL as self link, leaves the
    reviews, the ids and every other business as they were, and Get on the id
    then answers the six values of the body. *)
Theorem put_business_get_roundtrip s req req' i content o n a c st z :
  reachable s → (∃ b, b ∈ businesses s ∧ b_id b = i) →
  valid_business content o n a c st z →
  ∃ s' body body',
    put_business s req i content = (s', Response (Obj body) 200) ∧
    body !! "id" = Some (JInt i) ∧
    body !! "self" = Some (JStr (url req)) ∧
    reviews s' = reviews s ∧
    b_id <$> businesses s' = b_id <$> businesses s ∧
    (∀ x, x ∈ businesses s → b_id x ≠ i → x ∈ businesses s') ∧
    get_business s' req' i = (s', Response (Obj body') 200) ∧
    body' !! "id" = Some (JInt i) ∧
    ∀ k, k ∈ required_business_fields → body' !! k = content !! k.
Proof.
  intros Hs (b & Hb & <-) Hvalid.
  pose proof (reachable_primary_keys s Hs) as Hpk.
  rewrite (put_business_updated s req (b_id b) content b o n a c st z) by done.
  eexists _, _, _. split_and!; [done|done|done|done| | | | |].
  - simpl. apply set_business_ids.
  - intros x Hx Hne. simpl. apply list_elem_of_fmap. exists x. split; [|done].
    unfold set_business. by rewrite decide_False.
  - unfold get_business. cbn [businesses].
    rewrite (filter_fmap_key b_id) by (intros; apply set_business_id).
    destruct Hpk as [Hunique _ _ _].
    rewrite (filter_key_unique b_id) by done.
    rewrite list_fmap_singleton. unfold set_business. rewrite decide_True by done.
    done.
  - done.
  - destruct Hvalid as [_ [Ho _] [Hn _] [Ha _] [Hc _] [Hst _] [Hz _]].
    intros k Hk. unfold required_business_fields in Hk. set_unfold in Hk.
    destruct Hk as [[[[[->| ->]| ->]| ->]| ->]| ->];
      [rewrite Ho|rewrite Hn|rewrite Ha|rewrite Hc|rewrite Hst|rewrite Hz]; done.
Qed.

Lemma put_business_get_roundtrip_witness :
  ∃ s' body body',
    put_business example_store (localhost "businesses/1") 1
      (<["name" := JStr "Bakery"]> example_business)
    = (s', Response (Obj body) 200) ∧
    body !! "self" = Some (JStr "http://localhost:8080/businesses/1") ∧
    reviews s' = reviews example_store ∧
    get_business s' (localhost "businesses/1") 1 = (s', Response (Obj body') 200) ∧
    body' !! "name" = Some (JStr "Bakery").
Proof.
  destruct (put_business_get_roundtrip example_store (localhost "businesses/1")
              (localhost "businesses/1") 1 (<["name" := JStr "Bakery"]> example_business)
              7 "Bakery" "1 Main St" "Corvallis" "OR" "97330")
    as (s' & body & body' & Hput & _ & Hself & Hreviews & _ & _ & Hget & _ & Hfields).
  - apply reachable_serve, reachable_init.
  - exists example_business_row. split; [vm_compute; apply list_elem_of_here|done].
  - split; [compute_done|split; [reflexivity|compute_done]..].
  - exists s', body, body'. split_and!; [done|done|done|done|].
    rewrite Hfields by compute_done. reflexivity.
Defined.

(** X4. Delete(Review) removes the review with the given id and nothing else:
    the businesses stay, a stored id is answered 204 and the table shrinks by
    one row, an unknown id is answered 404 and the store is unchanged; after
    it Get on the id answers 404 and Get on any other id answers what it
    answered before. *)
Theorem delete_review_removes s req i :
  reachable s →
  let s' := (delete_review s req i).1 in
  let out := (delete_review s req i).2 in
  businesses s' = businesses s ∧
  reviews s' = filter (λ r, r_id r ≠ i) (reviews s) ∧
  (∀ r, r ∈ reviews s → r_id r = i →
     out = Response Blank 204 ∧
     (length (reviews s') + 1 = length (reviews s))%nat) ∧
  ((∀ r, r ∈ reviews s → r_id r ≠ i) →
     out = Response (Obj ERROR_REVIEW_NOT_FOUND) 404 ∧ s' = s) ∧
  (∀ req', get_review s' req' i = (s', Response (Obj ERROR_REVIEW_NOT_FOUND) 404)) ∧
  (∀ req' j, j ≠ i → (get_review s' req' j).2 = (get_review s req' j).2).
Proof.
  intros Hs. cbv zeta. destruct (reachable_primary_keys s Hs) as [_ _ Hpk _].
  assert (Hb : businesses (delete_review s req i).1 = businesses s)
    by (unfold delete_review; by case_decide).
  assert (Hr : reviews (delete_review s req i).1 = filter (λ r, r_id r ≠ i) (reviews s))
    by (unfold delete_review; by case_decide).
  split_and!; try done.
  - intros r Hin <-. pose proof (length_filter_key r_id (r_id r) (reviews s)) as Hlen.
    rewrite (filter_key_unique r_id) in Hlen by done.
    split; [|rewrite Hr; simpl in Hlen; lia].
    unfold delete_review. rewrite (filter_key_unique r_id) by done.
    done.
  - intros Hnone. unfold delete_review.
    rewrite filter_none by done. rewrite filter_all by done.
    simpl. split; [done|]. by destruct s.
  - intros req'. apply get_review_not_found. rewrite Hr.
    by intros r [Hne _]%list_elem_of_filter.
  - intros req' j Hj. unfold get_review. rewrite Hr.
    rewrite (filter_other_key r_id) by done.
    destruct (one_or_none _) as [[row|]|e]; done.
Qed.

Lemma delete_review_removes_witness :
  (delete_review example_store (localhost "reviews/1") 1).2 = Response Blank 204 ∧
  reviews (delete_review example_store (localhost "reviews/1") 1).1 = [] ∧
  delete_review example_store (localhost "reviews/7") 7
  = (example_store, Response (Obj ERROR_REVIEW_NOT_FOUND) 404).
Proof.
  assert (Hs : reachable example_store) by apply reachable_serve, reachable_init.
  destruct (delete_review_removes example_store (localhost "reviews/1") 1 Hs)
    as (_ & Hr & H204 & _).
  destruct (delete_review_removes example_store (localhost "reviews/7") 7 Hs)
    as (_ & _ & _ & H404 & _).
  split_and!.
  - apply (H204 example_review_row); [vm_compute; apply list_elem_of_here|done].
  - rewrite Hr. reflexivity.
  - destruct H404 as [Hout Hstore].
    + intros r Hin. vm_compute in Hin. apply list_elem_of_singleton in Hin as ->. done.
    + rewrite (surjective_pairing (delete_review example_store (localhost "reviews/7") 7)).
      by rewrite Hout, Hstore.
Defined.

(** X5. For a body whose user_id, business_id and stars are integers and
    whose review_text is omitted, null or a string: a review that
    Create(Review) answers with 201 at the collection URL is stored under the
    generated id, and Get at the URL of that review then answers exactly the
    representation the 201 carried, self link included (unlike
    Create(Business)); the business link of the representation is the self
    link that Get answers for the reviewed business. *)
Theorem post_review_get_roundtrip s req content u b k t s' body :
  reachable s → path req = REVIEWS → query_string req = "" →
  content !! "user_id" = Some (JInt u) →
  content !! "business_id" = Some (JInt b) →
  content !! "stars" = Some (JInt k) →
  created_text content t →
  post_review s req content = (s', Response (Obj body) 201) →
  ∃ i body_b,
    body !! "id" = Some (JInt i) ∧
    get_review s' (get_review_request req i) i = (s', Response (Obj body) 200) ∧
    body !! "business_id" = None ∧
    get_business s' (get_request req b) b = (s', Response (Obj body_b) 200) ∧
    body_b !! "id" = Some (JInt b) ∧
    body_b !! "self" = body !! "business".
Proof.
  intros Hs Hpath Hquery Hu Hb Hk _ Hpost.
  assert (Hs' : reachable s').
  { change s' with (s', Response (Obj body) 201).1. rewrite <-Hpost.
    apply (reachable_step s (PostReview req content) Hs). }
  pose proof (reachable_primary_keys s' Hs') as Hpk'.
  apply post_review_201 in Hpost
    as (u' & b' & k' & t' & Hu' & Hb' & Hk' & Ht' & (x & Hx & Hxid)%Exists_exists
        & Hstore & Hbody).
  assert (b' = b) as -> by congruence.
  set (row := {| r_id := reviews_seq s; r_user_id := u'; r_business_id := b;
                 r_stars := k'; r_review_text := t' |}).
  assert (Hrow : row ∈ reviews s') by (rewrite Hstore; simpl; set_solver).
  assert (Hx' : x ∈ businesses s') by (by rewrite Hstore).
  injection Hxid as Hxid.
  exists (reviews_seq s). eexists. split_and!.
  - by rewrite Hbody.
  - rewrite (get_review_found s' _ row Hpk' Hrow). do 3 f_equal.
    rewrite Hbody. unfold review_body, get_review_request, url, base_url.
    rewrite Hquery, Hpath. simpl.
    by rewrite string_app_assoc.
  - by rewrite Hbody.
  - rewrite Hxid. by apply get_business_found.
  - by rewrite Hxid.
  - rewrite Hbody, Hxid. done.
Qed.

Lemma post_review_get_roundtrip_witness :
  get_review (post_review example_store (localhost "reviews") (example_review 9 1 5)).1
    (localhost "reviews/2") 2
  = ((post_review example_store (localhost "reviews") (example_review 9 1 5)).1,
     Response (Obj (list_to_map
       [("id", JInt 2); ("user_id", JInt 9);
        ("business", JStr "http://localhost:8080/businesses/1");
        ("stars", JInt 5); ("review_text", JStr "");
        ("self", JStr "http://localhost:8080/reviews/2")])) 200).
Proof.
  destruct (post_review_get_roundtrip example_store (localhost "reviews")
              (example_review 9 1 5) 9 1 5 (Some "")
              (post_review example_store (localhost "reviews") (example_review 9 1 5)).1
              (list_to_map
                 [("id", JInt 2); ("user_id", JInt 9);
                  ("business", JStr "http://localhost:8080/businesses/1");
                  ("stars", JInt 5); ("review_text", JStr "");
                  ("self", JStr "http://localhost:8080/reviews/2")]))
    as (i & body_b & Hid & Hget & _);
    [apply reachable_serve, reachable_init|reflexivity..|].
  assert (i = 2) as -> by (vm_compute in Hid; congruence).
  exact Hget.
Defined.

(** X6. The reviews of a user: the answer is 200 with one entry per stored
    review of that user and no other entry; an entry has no business_id but
    the business link and the self link, and it is the representation that
    Get answers at that self link; in a reachable store no two entries link
    the same business. *)
Theorem get_reviews_of_user s req u :
  reachable s →
  ∃ entries,
    get_reviews s req u = (s, Response (Arr entries) 200) ∧
    length entries = length (filter (λ r, r_user_id r = u) (reviews s)) ∧
    (∀ r, r ∈ reviews s → r_user_id r = u → review_entry req r ∈ entries) ∧
    (∀ d, d ∈ entries →
       ∃ r, r ∈ reviews s ∧ r_user_id r = u ∧ d = review_entry req r ∧
            d !! "business_id" = None ∧
            d !! "self" = Some (JStr (url_root req +:+ "reviews/" +:+ pretty (r_id r))) ∧
            get_review s (get_review_request req (r_id r)) (r_id r)
            = (s, Response (Obj d) 200)) ∧
    NoDup ((λ d : dict, d !! "business") <$> entries).
Proof.
  intros Hs. pose proof (reachable_primary_keys s Hs) as Hpk.
  pose proof (reachable_unique_reviews s Hs) as Hunique.
  eexists. split; [apply get_reviews_entries|]. split_and!.
  - by rewrite length_fmap.
  - intros r Hr Hu. apply list_elem_of_fmap. exists r. split; [done|].
    by apply list_elem_of_filter.
  - intros d (r & -> & [Hu Hr]%list_elem_of_filter)%list_elem_of_fmap.
    exists r. split_and!; try done.
    rewrite (get_review_found s _ r Hpk Hr). by rewrite review_entry_is_body.
  - rewrite <-list_fmap_compose. apply NoDup_fmap_2_strong.
    + intros x y [Hxu Hx]%list_elem_of_filter [Hyu Hy]%list_elem_of_filter Heq.
      simpl in Heq. rewrite !review_entry_business in Heq.
      injection Heq as Heq. apply business_link_inj in Heq.
      apply (key_inj review_key x y (reviews s)); [done..|].
      unfold review_key. congruence.
    + apply NoDup_filter. destruct Hpk as [_ _ Hids _]. by apply NoDup_fmap_1 in Hids.
Qed.

Lemma get_reviews_of_user_witness :
  ∃ entries,
    get_reviews example_store (localhost "users/3/reviews") 3
    = (example_store, Response (Arr entries) 200) ∧
    review_entry (localhost "users/3/reviews") example_review_row ∈ entries ∧
    get_review example_store (localhost "reviews/1") 1
    = (example_store,
       Response (Obj (review_entry (localhost "users/3/reviews") example_review_row)) 200).
Proof.
  destruct (get_reviews_of_user example_store (localhost "users/3/reviews") 3)
    as (entries & Hget & _ & Hin & Hentry & _);
    [apply reachable_serve, reachable_init|].
  assert (Hd : review_entry (localhost "users/3/reviews") example_review_row ∈ entries)
    by (apply Hin; [vm_compute; apply list_elem_of_here|done]).
  exists entries. split; [exact Hget|]. split; [exact Hd|].
  destruct (Hentry _ Hd) as (r & _ & _ & Heq & _ & _ & Hreview).
  assert (r_id r = 1) as Hid.
  { apply (f_equal (λ d : dict, d !! "id")) in Heq.
    rewrite !review_entry_id in Heq. by injection Heq. }
  rewrite Hid in Hreview. exact Hreview.
Defined.

(** X7. The listings of businesses are made of the representations that Get
    serves: in a reachable store Get at the self link of a stored business
    answers its listing entry; every entry of a page is the entry of a stored
    business; and the businesses of an owner are answered 200 with exactly the
    entries of the stored businesses of that owner, none for an owner without
    a business. *)
Theorem business_listings_agree_with_get s req :
  reachable s →
  (∀ b, b ∈ businesses s →
        listed req b !! "self" = Some (JStr (base_url (get_request req (b_id b)))) ∧
        get_business s (get_request req (b_id b)) (b_id b)
        = (s, Response (Obj (listed req b)) 200)) ∧
  (∀ offset limit entries next,
     get_businesses s req offset limit = (s, Response (Paged entries next) 200) →
     ∀ d, d ∈ entries → ∃ b, b ∈ businesses s ∧ d = listed req b) ∧
  (∀ o, ∃ entries,
     get_businesses__of_owner s req o = (s, Response (Arr entries) 200) ∧
     (∀ d, d ∈ entries ↔ ∃ b, b ∈ businesses s ∧ b_owner_id b = o ∧ d = listed req b) ∧
     ((∀ b, b ∈ businesses s → b_owner_id b ≠ o) → entries = [])).
Proof.
  intros Hs. pose proof (reachable_primary_keys s Hs) as Hpk. split_and!.
  - intros b Hb. split; [done|].
    rewrite (get_business_found s _ b Hpk Hb). by rewrite listed_is_body.
  - intros offset limit entries next ->%get_businesses_entries d
      (b & -> & Hb)%list_elem_of_fmap.
    exists b. split; [|done].
    apply subseteq_take, subseteq_drop in Hb.
    by rewrite merge_sort_Permutation in Hb.
  - intros o. eexists. split; [apply get_businesses__of_owner_entries|]. split.
    + intros d. rewrite list_elem_of_fmap. split.
      * intros (b & -> & [Ho Hb]%list_elem_of_filter). by exists b.
      * intros (b & Hb & Ho & ->). exists b. split; [done|].
        by apply list_elem_of_filter.
    + intros Hnone. by rewrite filter_none.
Qed.

Lemma business_listings_agree_with_get_witness :
  get_business five_businesses (localhost "businesses/4") 4
  = (five_businesses,
     Response (Obj (listed (localhost "businesses")
                      {| b_id := 4; b_owner_id := 7; b_name := "Cafe";
                         b_street_address := "1 Main St"; b_city := "Corvallis";
                         b_state := "OR"; b_zip_code := "97330" |})) 200).
Proof.
  destruct (business_listings_agree_with_get five_businesses (localhost "businesses"))
    as (Hget & _); [apply reachable_serve, reachable_init|].
  apply (Hget {| b_id := 4; b_owner_id := 7; b_name := "Cafe";
                 b_street_address := "1 Main St"; b_city := "Corvallis";
                 b_state := "OR"; b_zip_code := "97330" |}).
  vm_compute. do 3 right. left.
Defined.

(** X8. In a reachable store a request changes the store only when it is a
    POST, PUT or DELETE that is answered with a 2xx status: the GET handlers
    never write, and a request answered with an error status, or ended by an
    exception, leaves the businesses, the reviews and the id counters as they
    were. *)
Theorem store_changes_only_on_success s c :
  reachable s →
  (is_write c = false → (dispatch s c).1 = s) ∧
  (¬ succeeded (dispatch s c).2 → (dispatch s c).1 = s).
Proof.
  intros Hs. pose proof (reachable_primary_keys s Hs) as Hpk.
  pose proof (reachable_referential_integrity s Hs) as Hri.
  destruct c as [req content|req i|req offset limit|req o|req i content|req i
                |req content|req i|req i content|req u|req i]; simpl.
  - split; [done|]. intros Hfail.
    destruct (post_business_outcome s req content) as [|[body Hbody]]; [done|].
    destruct Hfail. rewrite Hbody. simpl. lia.
  - split; intros _; apply get_business_unchanged.
  - split; intros _; apply get_businesses_unchanged.
  - done.
  - split; [done|]. intros Hfail.
    destruct (put_business_outcome s req i content) as [|[body Hbody]]; [done|].
    destruct Hfail. rewrite Hbody. simpl. lia.
  - split; [done|]. intros Hfail. apply delete_business_404_unchanged; [done..|].
    intros Hout. apply Hfail. rewrite Hout. simpl. lia.
  - split; [done|]. intros Hfail. apply post_review_failure_unchanged.
    intros body Hout. apply Hfail. rewrite Hout. simpl. lia.
  - split; intros _; apply get_review_unchanged.
  - split; [done|]. intros Hfail. apply put_review_failure_unchanged.
    intros body Hout. apply Hfail. rewrite Hout. simpl. lia.
  - done.
  - split; [done|]. intros Hfail. apply delete_review_404_unchanged; [done|].
    intros Hout. apply Hfail. rewrite Hout. simpl. lia.
Qed.

Lemma store_changes_only_on_success_witness :
  (dispatch example_store (GetReviews (localhost "users/3/reviews") 3)).1 = example_store ∧
  (dispatch example_store (DeleteBusiness (localhost "businesses/9") 9)).1 = example_store ∧
  (dispatch example_store (PostReview (localhost "reviews") (example_review 3 1 2))).1
  = example_store.
Proof.
  assert (Hs : reachable example_store) by apply reachable_serve, reachable_init.
  split_and!.
  - destruct (store_changes_only_on_success example_store
                (GetReviews (localhost "users/3/reviews") 3) Hs) as [Hread _].
    by apply Hread.
  - destruct (store_changes_only_on_success example_store
                (DeleteBusiness (localhost "businesses/9") 9) Hs) as [_ Hfail].
    apply Hfail. vm_compute. by intros [_ Hlt].
  - destruct (store_changes_only_on_success example_store
                (PostReview (localhost "reviews") (example_review 3 1 2)) Hs) as [_ Hfail].
    apply Hfail. vm_compute. by intros [_ Hlt].
Defined.

(** X9. In a store whose ids are unique in each table and whose reviews are
    one per (user, business) pair, as every reachable store is, no request
    ends with [MultipleResultsFound]: each [one_or_none()] lookup meets at
    most one row.  A [KeyError] escapes only Create(Business) and
    Update(Business), for a body of six fields, and names a required field
    that the body lacks. *)
Theorem lookups_meet_one_row s c :
  primary_keys s → unique_reviews s →
  (dispatch s c).2 ≠ Raised MultipleResultsFound ∧
  ∀ k, (dispatch s c).2 = Raised (KeyError k) →
    k ∈ required_business_fields ∧
    ∃ req content,
      (c = PostBusiness req content ∨ ∃ i, c = PutBusiness req i content) ∧
      size content = 6%nat ∧ content !! k = None.
Proof.
  intros Hpk Hunique. split.
  - intros H. by apply dispatch_may_raise in H.
  - intros k H. pose proof (dispatch_may_raise s c _ Hpk Hunique H) as Hmay.
    destruct c as [req content|req i|req offset limit|req o|req i content|req i
                  |req content|req i|req i content|req u|req i];
      simpl in Hmay; try done; simpl in H; destruct Hmay as [Hk Hnone].
    + split; [done|]. exists req, content. split_and!; [by left| |done].
      destruct (decide (size content = 6%nat)) as [|Hsize]; [done|].
      by rewrite post_business_400 in H.
    + split; [done|]. exists req, content. split_and!; [right; by exists i| |done].
      destruct (decide (size content = 6%nat)) as [|Hsize]; [done|].
      by rewrite put_business_400 in H.
Qed.

Lemma lookups_meet_one_row_witness :
  primary_keys example_store ∧ unique_reviews example_store ∧
  "zip_code" ∈ required_business_fields ∧
  ∃ req content,
    (PostBusiness (localhost "businesses") business_without_zip_code
     = PostBusiness req content
     ∨ ∃ i, PostBusiness (localhost "businesses") business_without_zip_code
            = PutBusiness req i content) ∧
    size content = 6%nat ∧ content !! "zip_code" = None.
Proof.
  assert (Hs : reachable example_store) by apply reachable_serve, reachable_init.
  pose proof (reachable_primary_keys _ Hs) as Hpk.
  pose proof (reachable_unique_reviews _ Hs) as Hunique.
  split; [exact Hpk|]. split; [exact Hunique|].
  destruct (lookups_meet_one_row example_store
              (PostBusiness (localhost "businesses") business_without_zip_code)
              Hpk Hunique) as [_ Hkey].
  apply (Hkey "zip_code"). reflexivity.
Defined.

(** X10. Pages of List(Business) chain: for non-negative values the page at
    [offset] with limit [l1] followed by the page at [offset + l1], the offset
    its next link names, with limit [l2] is the page at [offset] with limit
    [l1 + l2]; a page is empty exactly when its limit is 0 or its offset is
    not below the number of businesses; and a page from offset 0 that is as
    long as the table holds every business once. *)
Theorem get_businesses_pages_chain s req offset l1 l2 :
  0 ≤ offset → 0 ≤ l1 → 0 ≤ l2 →
  ∃ e1 e2,
    get_businesses s req (Some offset) (Some l1)
    = (s, Response (Paged e1 (next_page req offset l1)) 200) ∧
    get_businesses s req (Some (offset + l1)) (Some l2)
    = (s, Response (Paged e2 (next_page req (offset + l1) l2)) 200) ∧
    get_businesses s req (Some offset) (Some (l1 + l2))
    = (s, Response (Paged (e1 ++ e2) (next_page req offset (l1 + l2))) 200) ∧
    (e1 = [] ↔ l1 = 0 ∨ (length (businesses s) ≤ Z.to_nat offset)%nat) ∧
    (offset = 0 → (length (businesses s) ≤ Z.to_nat l1)%nat →
     e1 ≡ₚ listed req <$> businesses s).
Proof.
  intros Hoff Hl1 Hl2.
  set (rows := merge_sort by_id (businesses s)).
  assert (Hlen : length rows = length (businesses s))
    by (subst rows; by rewrite merge_sort_Permutation).
  exists (listed req <$> take (Z.to_nat l1) (drop (Z.to_nat offset) rows)),
         (listed req <$> take (Z.to_nat l2) (drop (Z.to_nat (offset + l1)) rows)).
  split_and!.
  - by apply get_businesses_rows.
  - apply get_businesses_rows; simpl; lia.
  - rewrite get_businesses_rows by (simpl; lia). simpl. do 3 f_equal.
    rewrite <-fmap_app. f_equal.
    rewrite !Z2Nat.inj_add, <-drop_drop by lia. symmetry. apply take_take_drop.
  - split.
    + intros Hnil%fmap_nil_inv. apply take_nil_inv in Hnil as [Hz|Hnil%drop_nil_inv].
      * left. lia.
      * right. lia.
    + intros [->|Hge]; [done|]. rewrite drop_ge by lia. by rewrite take_nil.
  - intros -> Hall. simpl. rewrite drop_0, take_ge by lia.
    subst rows. by rewrite merge_sort_Permutation.
Qed.

Lemma get_businesses_pages_chain_witness :
  ∃ e1 e2,
    get_businesses five_businesses (localhost "businesses") (Some 0) (Some 2)
    = (five_businesses,
       Response (Paged e1 "http://localhost:8080/businesses?offset=2&limit=2") 200) ∧
    get_businesses five_businesses (localhost "businesses") (Some 2) (Some 3)
    = (five_businesses,
       Response (Paged e2 "http://localhost:8080/businesses?offset=5&limit=3") 200) ∧
    get_businesses five_businesses (localhost "businesses") (Some 0) (Some 5)
    = (five_businesses,
       Response (Paged (e1 ++ e2) "http://localhost:8080/businesses?offset=5&limit=5") 200).
Proof.
  destruct (get_businesses_pages_chain five_businesses (localhost "businesses") 0 2 3)
    as (e1 & e2 & H1 & H2 & H12 & _); [lia..|].
  exists e1, e2. split; [exact H1|]. split; [exact H2|exact H12].
Defined.

(** X11. Delete(Business) touches nothing else: Get on any other business id
    answers what it answered before, the reviews of the other businesses stay
    stored, and in a reachable store Get on such a review answers what it
    answered before. *)
Theorem delete_business_frame s req i :
  (∀ req' j, j ≠ i →
     (get_business (delete_business s req i).1 req' j).2 = (get_business s req' j).2) ∧
  (∀ r, r ∈ reviews s → r_business_id r ≠ i → r ∈ reviews (delete_business s req i).1) ∧
  (reachable s →
   ∀ req' r, r ∈ reviews s → r_business_id r ≠ i →
     (get_review (delete_business s req i).1 req' (r_id r)).2
     = (get_review s req' (r_id r)).2).
Proof.
  assert (Hb : businesses (delete_business s req i).1
               = filter (λ b, b_id b ≠ i) (businesses s))
    by (unfold delete_business; by case_decide).
  assert (Hr : reviews (delete_business s req i).1
               = filter (λ r, r_business_id r ≠ i) (reviews s))
    by (unfold delete_business; by case_decide).
  split_and!.
  - intros req' j Hj. unfold get_business. rewrite Hb.
    rewrite (filter_other_key b_id) by done.
    destruct (one_or_none _) as [[row|]|e]; done.
  - intros r Hin Hne. rewrite Hr. by apply list_elem_of_filter.
  - intros Hs req' r Hin Hne. destruct (reachable_primary_keys s Hs) as [_ _ Hpk _].
    unfold get_review. rewrite Hr.
    rewrite (filter_key_unique r_id r (reviews s)) by done.
    rewrite (filter_key_unique r_id r (filter _ (reviews s))); [done| |].
    + by apply NoDup_fmap_filter.
    + by apply list_elem_of_filter.
Qed.

Lemma delete_business_frame_witness :
  (get_business (delete_business five_businesses (localhost "businesses/2") 2).1
     (localhost "businesses/4") 4).2
  = (get_business five_businesses (localhost "businesses/4") 4).2 ∧
  (get_review (delete_business example_store (localhost "businesses/9") 9).1
     (localhost "reviews/1") (r_id example_review_row)).2
  = (get_review example_store (localhost "reviews/1") (r_id example_review_row)).2.
Proof.
  split.
  - destruct (delete_business_frame five_businesses (localhost "businesses/2") 2)
      as (Hget & _).
    apply Hget. lia.
  - destruct (delete_business_frame example_store (localhost "businesses/9") 9)
      as (_ & _ & Hget).
    apply Hget; [apply reachable_serve, reachable_init| |simpl; lia].
    vm_compute. apply list_elem_of_here.
Defined.

(** X12. Every row of a reachable store satisfies the column constraints of
    [create_table]: a business has an owner_id of 32 bits, a name and a city
    of at most 50 characters, a street_address of at most 100, a state of at
    most 2 and a zip_code of at most 5 (shorter values are stored as they
    are); a review has a user_id and a business_id of 32 bits, stars within
    [0,5] and a review_text that is NULL or has at most 1000 characters. *)
Theorem stored_rows_fit_columns s :
  reachable s →
  (∀ b, b ∈ businesses s → business_fits b) ∧ (∀ r, r ∈ reviews s → review_fits r).
Proof.
  induction 1 as [|s c Hs IH].
  - split; intros x Hx; by apply elem_of_nil in Hx.
  - by apply dispatch_rows_fit.
Qed.

Lemma stored_rows_fit_columns_witness :
  business_fits example_business_row ∧ review_fits example_review_row.
Proof.
  destruct (stored_rows_fit_columns example_store) as [Hb Hr];
    [apply reachable_serve, reachable_init|].
  split; [apply Hb|apply Hr]; vm_compute; apply list_elem_of_here.
Defined.

(** X13. Get by id in a reachable store: Get(Business) answers 404 exactly
    for an id that is not stored and otherwise 200 with the stored row and,
    as self link, the request URL without its query string; Get(Review)
    answers 404 exactly for an id that is not stored and otherwise 200 with
    the stored values, the business link in place of business_id and, as self
    link, the request URL with its query string. *)
Theorem get_by_id s req i :
  reachable s →
  ((∀ b, b ∈ businesses s → b_id b ≠ i) →
   get_business s req i = (s, Response (Obj ERROR_BUSINESS_NOT_FOUND) 404)) ∧
  (∀ b, b ∈ businesses s → b_id b = i →
     ∃ body,
       get_business s req i = (s, Response (Obj body) 200) ∧
       body = <["self" := JStr (url_root req +:+ path req)]> (business_asdict b) ∧
       body !! "id" = Some (JInt i) ∧
       body !! "owner_id" = Some (JInt (b_owner_id b)) ∧
       body !! "name" = Some (JStr (b_name b)) ∧
       body !! "zip_code" = Some (JStr (b_zip_code b))) ∧
  ((∀ r, r ∈ reviews s → r_id r ≠ i) →
   get_review s req i = (s, Response (Obj ERROR_REVIEW_NOT_FOUND) 404)) ∧
  (∀ r, r ∈ reviews s → r_id r = i →
     ∃ body,
       get_review s req i = (s, Response (Obj body) 200) ∧
       body !! "id" = Some (JInt i) ∧
       body !! "user_id" = Some (JInt (r_user_id r)) ∧
       body !! "stars" = Some (JInt (r_stars r)) ∧
       body !! "review_text" = Some (json_of_text (r_review_text r)) ∧
       body !! "business"
       = Some (JStr (url_root req +:+ "businesses/" +:+ pretty (r_business_id r))) ∧
       body !! "business_id" = None ∧
       body !! "self"
       = Some (JStr (if decide (query_string req = "") then url_root req +:+ path req
                     else (url_root req +:+ path req) +:+ "?" +:+ query_string req))).
Proof.
  intros Hs. pose proof (reachable_primary_keys s Hs) as Hpk. split_and!.
  - apply get_business_not_found.
  - intros b Hb <-. eexists. split; [by apply get_business_found|]. done.
  - apply get_review_not_found.
  - intros r Hr <-. eexists. split; [by apply get_review_found|]. done.
Qed.

Lemma get_by_id_witness :
  get_business example_store (localhost "businesses/3") 3
  = (example_store, Response (Obj ERROR_BUSINESS_NOT_FOUND) 404) ∧
  ∃ body,
    get_review example_store
      {| url_root := "http://localhost:8080/"; path := "reviews/1";
         query_string := "verbose=1" |} 1
    = (example_store, Response (Obj body) 200) ∧
    body !! "self" = Some (JStr "http://localhost:8080/reviews/1?verbose=1").
Proof.
  assert (Hs : reachable example_store) by apply reachable_serve, reachable_init.
  split.
  - destruct (get_by_id example_store (localhost "businesses/3") 3 Hs) as (H404 & _).
    apply H404. intros b Hb. vm_compute in Hb.
    apply list_elem_of_singleton in Hb as ->. done.
  - destruct (get_by_id example_store
                {| url_root := "http://localhost:8080/"; path := "reviews/1";
                   query_string := "verbose=1" |} 1 Hs) as (_ & _ & _ & H200).
    destruct (H200 example_review_row) as (body & Hget & _ & _ & _ & _ & _ & _ & Hself);
      [vm_compute; apply list_elem_of_here|done|].
    exists body. split; [exact Hget|exact Hself].
Defined.
